(** * RagbotFlat: document artifact store and vector retrieval engine

    A shallow embedding of [document_map.py], [walrus_client.py],
    [retriever.py], [ingest.py] and the file handlers of [app.py], with the
    properties of the specification stated and proved over it.

    Python exceptions are values of [exc]; every [try]/[except] of the source
    is a [match] on such a value.  The local file system, the state of
    everything outside the process (blob service, clock) and the sequence of
    I/O actions performed so far are carried in an explicit [world]. *)

From Stdlib Require Import ZArith.
From stdpp Require Import gmap strings list fin_maps.

Local Open Scope string_scope.
Local Open Scope Z_scope.

(** ** Python values and exceptions *)

(** Byte strings and text are both sequences of characters here; the two
    directions of the UTF-8 codec are part of the environment. *)
Abbreviation bytes := string.

(** The exception classes the sources distinguish; all of them are
    subclasses of Python's [Exception]. *)
Inductive exn_class : Type :=
  | FileNotFoundError
  | JSONDecodeError
  | UnicodeDecodeError
  | IndexError
  | ValueError
  | KeyError
  | AttributeError
  | AssertionError
  | OtherException.

(** An exception object: its class and [str(e)]. *)
Record exn : Type := Exn {
  class_of : exn_class;
  str : string
}.

Inductive exc (A : Type) : Type :=
  | Ok (a : A)
  | Raise (e : exn).
Arguments Ok {A} a.
Arguments Raise {A} e.

(** Code that changes a state [S] and may raise: the state reached when the
    exception is raised is kept, as a Python object keeps the assignments
    made before a failing statement. *)
Definition action (S A : Type) : Type := S -> S * exc A.

Definition ret {S A} (a : A) : action S A := fun s => (s, Ok a).

Definition bind {S A B} (m : action S A) (k : A -> action S B) : action S B :=
  fun s =>
    match m s with
    | (s', Ok a) => k a s'
    | (s', Raise e) => (s', Raise e)
    end.

(** [try: m  except Exception as e: h e] *)
Definition try_except {S A} (m : action S A) (h : exn -> action S A)
    : action S A :=
  fun s =>
    match m s with
    | (s', Ok a) => (s', Ok a)
    | (s', Raise e) => h e s'
    end.

Definition gets {S A} (f : S -> A) : action S A := fun s => (s, Ok (f s)).

(** A pure computation that may raise. *)
Definition lift {S A} (r : exc A) : action S A := fun s => (s, r).

(** An action on the first component of a pair of states. *)
Definition io {W X A} (m : action W A) : action (W * X) A :=
  fun s => let '(w', r) := m s.1 in ((w', s.2), r).

(** A change of the first component that cannot fail. *)
Definition io_ {W X} (f : W -> W) : action (W * X) unit :=
  fun s => ((f s.1, s.2), Ok tt).

(** A change of the second component ([self], or a local list). *)
Definition update {W X} (f : X -> X) : action (W * X) unit :=
  fun s => ((s.1, f s.2), Ok tt).

Declare Scope action_scope.
Delimit Scope action_scope with action.
Notation "x <- m ;; k" := (bind m (fun x => k))
  (at level 100, m at next level, right associativity) : action_scope.
Notation "m ;; k" := (bind m (fun _ => k))
  (at level 100, right associativity) : action_scope.

(** [for x in l: body x], stopping at the first exception. *)
Fixpoint for_each {S A} (l : list A) (body : A -> action S unit)
    : action S unit :=
  match l with
  | [] => ret tt
  | x :: l' => bind (body x) (fun _ => for_each l' body)
  end.

(** [d[k]] on a dict *)
Definition dict_get {V} (d : gmap string V) (k : string) : exc V :=
  match d !! k with
  | Some v => Ok v
  | None => Raise (Exn KeyError k)
  end.

(** [l[i]] on a list: a negative index counts from the end. *)
Definition py_index {A} (l : list A) (i : Z) : exc A :=
  let n := Z.of_nat (length l) in
  let j := if i <? 0 then i + n else i in
  if (0 <=? j) && (j <? n) then
    match l !! Z.to_nat j with
    | Some x => Ok x
    | None => Raise (Exn IndexError "list index out of range")
    end
  else Raise (Exn IndexError "list index out of range").

(** JSON scalars occurring in blob metadata. *)
Inductive jval : Type :=
  | JStr (s : string)
  | JBool (b : bool).

(** A metadata dict literal, in the order it is written in the source. *)
Abbreviation meta := (list (string * jval)).

(** [store_document] accepts either text or bytes. *)
Inductive str_or_bytes : Type :=
  | Str (s : string)
  | Bytes (b : bytes).

(** Python truthiness of an optional string: [None] and the empty string are
    false. *)
Definition truthy (o : option string) : bool :=
  match o with
  | Some s => negb (String.eqb s "")
  | None => false
  end.

(** [s.endswith(suffix)] *)
Definition endswith (s suffix : string) : bool :=
  (String.length suffix <=? String.length s)%nat &&
  String.eqb
    (String.substring (String.length s - String.length suffix) (String.length suffix) s)
    suffix.

(** [os.path.join(a, b)] for a relative [b] on a POSIX system. *)
Definition path_join (a b : string) : string := a +:+ "/" +:+ b.

(** [b.startswith('/')] *)
Definition is_absolute (b : string) : bool :=
  match b with
  | String c _ => Ascii.eqb c (Ascii.ascii_of_nat 47)
  | EmptyString => false
  end.

(** [os.path.join(a, b)] on a POSIX system for any [a] and [b], as the
    request handlers need it for a name chosen by the client: an absolute
    [b] discards [a], and no separator is added to an empty [a] or to one
    that ends with a separator. *)
Definition os_path_join (a b : string) : string :=
  if is_absolute b then b
  else if String.eqb a "" || endswith a "/" then a +:+ b
  else path_join a b.

(** ** The HTTP interface of the blob service *)

Record response (A : Type) : Type := Response {
  status_code : Z;
  text : string;
  (** what reading the expected field off the JSON body gives *)
  payload : exc A
}.
Arguments Response {A} _ _ _.
Arguments status_code {A} _.
Arguments text {A} _.
Arguments payload {A} _.

(** Everything outside the process.  [ext] is its hidden state: each request
    may change it and be answered from it, so a request may succeed now and
    fail later. *)
Class Environment : Type := {
  ext : Type;
  (** [POST /api/v1/store]; [requests.post] itself may raise *)
  api_store : ext -> bytes -> meta -> ext * exc (response string);
  (** [GET /api/v1/retrieve/<blob_id>], payload already base64-decoded *)
  api_retrieve : ext -> string -> ext * exc (response bytes);
  (** [datetime.now().isoformat()] *)
  clock : ext -> ext * string;
  (** [os.walk(top)]: pairs of a directory and the file names in it *)
  os_walk : gmap string bytes -> string -> list (string * list string);
  (** [os.path.abspath] *)
  abspath : string -> string;
  (** [DATA_DIR] of app.py and the default [data_dir] of ingest.py, both
      computed from the location of the scripts *)
  DATA_DIR : string;
  default_data_dir : string;
  utf8_decode : bytes -> exc string;
  utf8_encode : string -> bytes
}.

(** ** Records kept by the system *)

(** One value of the document map: [{"blob_id", "timestamp", "metadata"}]. *)
Record entry : Type := Entry {
  blob_id : string;
  timestamp : string;
  metadata : meta
}.

(** One element of [document_metadata]. *)
Record doc_meta : Type := DocMeta {
  file_path : string;
  file_name : string;
  meta_blob_id : option string;
  source : string
}.

(** One element of the list returned by [retrieve_documents]. *)
Record doc : Type := Doc {
  content : string;
  doc_file_name : string;
  doc_file_path : string;
  doc_source : string
}.

(** The libraries the sources call: scikit-learn's TF-IDF vectorizer, the
    flat L2 index of faiss, [pickle] and [json].  An index is the sequence of
    the vectors added to it, in the order they were added. *)
Class Libraries : Type := {
  Vectorizer : Type;
  vec : Type;
  (** [fit]: learns the vocabulary, fails on an empty one *)
  tfidf_fit : list string -> exc Vectorizer;
  tfidf_transform : Vectorizer -> string -> vec;
  (** [index.search(x, k)]: the row of labels, [-1] where there is no hit *)
  faiss_search : list vec -> vec -> Z -> exc (list Z);
  serialize_index : list vec -> bytes;
  read_index : bytes -> exc (list vec);
  pickle_dumps_vectorizer : Vectorizer -> bytes;
  pickle_loads_vectorizer : bytes -> exc Vectorizer;
  pickle_dumps_metadata : list doc_meta -> bytes;
  pickle_loads_metadata : bytes -> exc (list doc_meta);
  json_dump_map : gmap string entry -> bytes;
  json_load_map : bytes -> exc (gmap string entry);
  json_dump_ids : gmap string string -> bytes;
  json_load_ids : bytes -> exc (gmap string string)
}.

(** What opening a path of the local disk for writing gives, in any of the
    modes ['w'], ['wb'] and ['a']: [open] raises when the directory of the
    path is missing, when the path names a directory or when the disk cannot
    be written.  The request handlers of [app.py] are modelled with it, so
    that a failed local write takes the handler to its [except] clause. *)
Class Disk : Type := {
  open_for_writing : string -> exc unit
}.

(** [request.json] as the append handler uses it: a JSON object, of which the
    handler reads the keys [filename] and [content] ([None] when the key is
    missing, a string otherwise), or a value that is not an object, [None]
    included. *)
Inductive request_json : Type :=
  | JsonObject (filename content : option string)
  | NotAnObject.

Section Model.
Context `{Environment} `{Libraries}.

(** ** The world *)

Inductive event : Type :=
  | EvRetrieve (b : string) (res : exc bytes)
  | EvStore (data : bytes) (m : meta) (res : exc string)
  | EvRead (path : string) (res : exc string)
  | EvWrite (path : string) (data : bytes)
  | EvSystem (use_walrus : bool)
  | EvPrint (msg : string).

Record world : Type := World {
  fs : gmap string bytes;
  outside : ext;
  trace : list event
}.

Definition log (ev : event) (w : world) : world :=
  World (fs w) (outside w) (trace w ++ [ev]).

(** [os.path.exists] *)
Definition exists_ (path : string) (w : world) : bool :=
  bool_decide (is_Some (fs w !! path)).

(** [open(path, 'r')] / [open(path, 'rb')] followed by a read of the bytes *)
Definition open_read (path : string) (w : world) : exc bytes :=
  match fs w !! path with
  | Some b => Ok b
  | None => Raise (Exn FileNotFoundError path)
  end.

(** [open(path, 'r', encoding='utf-8').read()] *)
Definition read_text (path : string) (w : world) : world * exc string :=
  let res := match open_read path w with
             | Ok b => utf8_decode b
             | Raise e => Raise e
             end in
  (log (EvRead path res) w, res).

(** [open(path, 'wb').write(data)]; the local disk is taken to be writable
    here, the request handlers of [app.py] use [open_and_write] instead. *)
Definition write_bytes (path : string) (data : bytes) (w : world) : world :=
  log (EvWrite path data) (World (<[path := data]> (fs w)) (outside w) (trace w)).

(** [open(path, 'w', encoding='utf-8').write(text)] *)
Definition write_text (path : string) (text : string) (w : world) : world :=
  write_bytes path (utf8_encode text) w.

(** [open(path, 'a', encoding='utf-8').write(text)] *)
Definition append_text (path : string) (text : string) (w : world) : world :=
  write_bytes path (default "" (fs w !! path) +:+ utf8_encode text) w.

Definition now (w : world) : world * string :=
  let '(e, t) := clock (outside w) in
  (World (fs w) e (trace w), t).

(** ** walrus_client.py *)

Definition store_document (file_content : str_or_bytes) (metadata : meta)
    (w : world) : world * exc string :=
  let data := match file_content with
              | Str s => utf8_encode s
              | Bytes b => b
              end in
  let '(e, resp) := api_store (outside w) data metadata in
  let res := match resp with
             | Ok r => if status_code r =? 200 then payload r
                       else Raise (Exn OtherException
                                     ("Failed to store document: " +:+ text r))
             | Raise x => Raise x
             end in
  (log (EvStore data metadata res) (World (fs w) e (trace w)), res).

Definition retrieve_document (b : string) (w : world) : world * exc bytes :=
  let '(e, resp) := api_retrieve (outside w) b in
  let res := match resp with
             | Ok r => if status_code r =? 200 then payload r
                       else Raise (Exn OtherException
                                     ("Failed to retrieve document: " +:+ text r))
             | Raise x => Raise x
             end in
  (log (EvRetrieve b res) (World (fs w) e (trace w)), res).

(** ** document_map.py *)

Record DocumentMap : Type := MkDocumentMap {
  map_file : string;
  document_map : gmap string entry
}.

(** Only [FileNotFoundError] and [json.JSONDecodeError] are handled. *)
Definition _load_map (map_file : string) (w : world) : exc (gmap string entry) :=
  let attempt := match open_read map_file w with
                 | Ok b => json_load_map b
                 | Raise e => Raise e
                 end in
  match attempt with
  | Ok m => Ok m
  | Raise e =>
      match class_of e with
      | FileNotFoundError | JSONDecodeError => Ok ∅
      | _ => Raise e
      end
  end.

(** [DocumentMap(map_file)] *)
Definition DocumentMap_init (map_file : string) (w : world) : exc DocumentMap :=
  match _load_map map_file w with
  | Ok m => Ok (MkDocumentMap map_file m)
  | Raise e => Raise e
  end.

Definition save_map (dm : DocumentMap) (w : world) : world :=
  write_bytes (map_file dm) (json_dump_map (document_map dm)) w.

Definition add_document (dm : DocumentMap) (filename b : string)
    (metadata : option meta) (w : world) : world * DocumentMap :=
  let metadata := default [] metadata in
  let '(w1, t) := now w in
  let dm' := MkDocumentMap (map_file dm)
               (<[filename := Entry b t metadata]> (document_map dm)) in
  (save_map dm' w1, dm').

Definition get_blob_id (dm : DocumentMap) (filename : string) : option string :=
  match document_map dm !! filename with
  | None => None
  | Some e => Some (blob_id e)
  end.

(** The keys, in the order of the map (Python: insertion order). *)
Definition list_documents (dm : DocumentMap) : list string :=
  (map_to_list (document_map dm)).*1.

Definition document_exists (dm : DocumentMap) (filename : string) : bool :=
  bool_decide (is_Some (document_map dm !! filename)).

Definition remove_document (dm : DocumentMap) (filename : string) (w : world)
    : world * DocumentMap * bool :=
  if document_exists dm filename then
    let dm' := MkDocumentMap (map_file dm) (delete filename (document_map dm)) in
    (save_map dm' w, dm', true)
  else (w, dm, false).

(** ** retriever.py *)

Record DocumentRetriever : Type := MkDocumentRetriever {
  vector_store_dir : string;
  index : option (list vec);
  vectorizer : option Vectorizer;
  document_metadata : option (list doc_meta);
  doc_map : DocumentMap;
  vector_store_blob_ids : gmap string string
}.

Definition set_index (v : option (list vec)) (r : DocumentRetriever) :=
  MkDocumentRetriever (vector_store_dir r) v (vectorizer r)
    (document_metadata r) (doc_map r) (vector_store_blob_ids r).

Definition set_vectorizer (v : option Vectorizer) (r : DocumentRetriever) :=
  MkDocumentRetriever (vector_store_dir r) (index r) v
    (document_metadata r) (doc_map r) (vector_store_blob_ids r).

Definition set_document_metadata (v : option (list doc_meta))
    (r : DocumentRetriever) :=
  MkDocumentRetriever (vector_store_dir r) (index r) (vectorizer r)
    v (doc_map r) (vector_store_blob_ids r).

Definition set_blob_id (k b : string) (r : DocumentRetriever) :=
  MkDocumentRetriever (vector_store_dir r) (index r) (vectorizer r)
    (document_metadata r) (doc_map r) (<[k := b]> (vector_store_blob_ids r)).

Definition vector_store_blob_ids_file : string := "vector_store_blob_ids.json".

Definition default_map_file : string := "document_map.json".

Definition _load_vector_store_blob_ids (w : world) : gmap string string :=
  let attempt :=
    if exists_ vector_store_blob_ids_file w then
      match open_read vector_store_blob_ids_file w with
      | Ok b => json_load_ids b
      | Raise e => Raise e
      end
    else Ok ∅ in
  match attempt with
  | Ok ids => ids
  | Raise _ => ∅
  end.

Definition _save_vector_store_blob_ids (r : DocumentRetriever) (w : world)
    : world :=
  write_bytes vector_store_blob_ids_file
    (json_dump_ids (vector_store_blob_ids r)) w.

(** [faiss.read_index(path)] *)
Definition faiss_read_index (path : string) (w : world) : exc (list vec) :=
  match open_read path w with
  | Ok b => read_index b
  | Raise e => Raise e
  end.

Definition artifact_names : list string := ["index"; "vectorizer"; "metadata"].

(** [ids and all(k in ids for k in ["index", "vectorizer", "metadata"])] *)
Definition has_all_artifacts (ids : gmap string string) : bool :=
  bool_decide (ids ≠ ∅) &&
  forallb (fun k => bool_decide (is_Some (ids !! k))) artifact_names.

Abbreviation rstate := (world * DocumentRetriever)%type.

(** The body of the inner [try] of [load_artifacts], up to its [return]. *)
Definition load_from_walrus : action rstate unit :=
  (ids <- gets (fun s : rstate => vector_store_blob_ids s.2) ;;
   dir <- gets (fun s : rstate => vector_store_dir s.2) ;;
   b <- lift (dict_get ids "index") ;;
   index_data <- io (retrieve_document b) ;;
   let temp_index_path := path_join dir "temp_faiss_index.bin" in
   io_ (write_bytes temp_index_path index_data) ;;
   ix <- (fun s : rstate => (s, faiss_read_index temp_index_path s.1)) ;;
   update (set_index (Some ix)) ;;
   b <- lift (dict_get ids "vectorizer") ;;
   vectorizer_data <- io (retrieve_document b) ;;
   v <- lift (pickle_loads_vectorizer vectorizer_data) ;;
   update (set_vectorizer (Some v)) ;;
   b <- lift (dict_get ids "metadata") ;;
   metadata_data <- io (retrieve_document b) ;;
   md <- lift (pickle_loads_metadata metadata_data) ;;
   update (set_document_metadata (Some md)))%action.

(** One local artifact: loaded when its file exists, [None] otherwise. *)
Definition load_local {A} (path : string) (loads : bytes -> exc A)
    (set : option A -> DocumentRetriever -> DocumentRetriever)
    : action rstate unit :=
  (ex <- gets (fun s : rstate => exists_ path s.1) ;;
   if ex : bool then
     b <- (fun s : rstate => (s, open_read path s.1)) ;;
     a <- lift (loads b) ;;
     update (set (Some a))
   else update (set None))%action.

(** The part of [load_artifacts] after the inner [try]. *)
Definition load_from_local : action rstate unit :=
  (dir <- gets (fun s : rstate => vector_store_dir s.2) ;;
   load_local (path_join dir "faiss_index.bin") read_index set_index ;;
   load_local (path_join dir "vectorizer.pkl") pickle_loads_vectorizer
     set_vectorizer ;;
   load_local (path_join dir "metadata.pkl") pickle_loads_metadata
     set_document_metadata)%action.

Definition clear_artifacts (r : DocumentRetriever) : DocumentRetriever :=
  set_document_metadata None (set_vectorizer None (set_index None r)).

Definition load_artifacts : action rstate unit :=
  try_except
    (ids <- gets (fun s : rstate => vector_store_blob_ids s.2) ;;
     returned <-
       (if has_all_artifacts ids then
          try_except (load_from_walrus ;; ret true) (fun _ => ret false)
        else ret false) ;;
     if returned : bool then ret tt else load_from_local)%action
    (fun _ => update clear_artifacts).

(** [DocumentRetriever(vector_store_dir)] *)
Definition DocumentRetriever_init (dir : string) : action world DocumentRetriever :=
  fun w =>
    match DocumentMap_init default_map_file w with
    | Raise e => (w, Raise e)
    | Ok dm =>
        let r := MkDocumentRetriever dir None None None dm
                   (_load_vector_store_blob_ids w) in
        let '((w', r'), res) := load_artifacts (w, r) in
        (w', match res with Ok _ => Ok r' | Raise e => Raise e end)
    end.

(** [not self.index or not self.vectorizer or not self.document_metadata]:
    an index and a vectorizer are false only when [None], a list also when
    empty. *)
Definition not_initialized (r : DocumentRetriever) : bool :=
  negb (bool_decide (is_Some (index r)))
  || negb (bool_decide (is_Some (vectorizer r)))
  || match document_metadata r with
     | Some (_ :: _) => false
     | _ => true
     end.

Definition octet_stream (type : string) : meta :=
  [("content_type", JStr "application/octet-stream"); ("type", JStr type)].

(** Returns [None] (nothing to save), [Some true] or [Some false]. *)
Definition save_artifacts_to_walrus : action rstate (option bool) :=
  fun s : rstate =>
    if not_initialized s.2 then (s, Ok None)
    else
      match index s.2, vectorizer s.2, document_metadata s.2 with
      | Some ix, Some v, Some md =>
          try_except
            (index_blob_id <-
               io (store_document (Bytes (serialize_index ix))
                     (octet_stream "faiss_index")) ;;
             update (set_blob_id "index" index_blob_id) ;;
             vectorizer_blob_id <-
               io (store_document (Bytes (pickle_dumps_vectorizer v))
                     (octet_stream "vectorizer")) ;;
             update (set_blob_id "vectorizer" vectorizer_blob_id) ;;
             metadata_blob_id <-
               io (store_document (Bytes (pickle_dumps_metadata md))
                     (octet_stream "document_metadata")) ;;
             update (set_blob_id "metadata" metadata_blob_id) ;;
             (fun s : rstate =>
                ((_save_vector_store_blob_ids s.2 s.1, s.2), Ok tt)) ;;
             ret (Some true))%action
            (fun _ => ret (Some false)) s
      | _, _, _ => (s, Ok None)
      end.

Abbreviation qstate := (world * list doc)%type.

(** The body of the [for idx in indices[0]] loop of [retrieve_documents];
    the second component of the state is [relevant_docs]. *)
Definition resolve (r : DocumentRetriever) (md : list doc_meta) (idx : Z)
    : action qstate unit :=
  if idx <? Z.of_nat (length md) then
    (doc_info <- lift (py_index md idx) ;;
     try_except
       (let file_name := file_name doc_info in
        let blob_id := get_blob_id (doc_map r) file_name in
        continue <-
          (if truthy blob_id then
             try_except
               (b <- io (retrieve_document (default "" blob_id)) ;;
                content <- lift (utf8_decode b) ;;
                update (fun docs : list doc => (docs ++
                  [Doc content file_name (file_path doc_info) "walrus"])%list) ;;
                ret true)
               (fun _ => ret false)
           else ret false) ;;
        if continue : bool then ret tt
        else
          let file_path := file_path doc_info in
          ex <- gets (fun s : qstate => exists_ file_path s.1) ;;
          if ex : bool then
            content <- io (read_text file_path) ;;
            update (fun docs : list doc => (docs ++
              [Doc content file_name file_path "local"])%list)
          else ret tt)
       (fun _ => ret tt))%action
  else ret tt.

Definition retrieve_documents (r : DocumentRetriever) (query : string) (k : Z)
    : action world (list doc) :=
  fun w =>
    if not_initialized r then (w, Ok [])
    else
      match index r, vectorizer r, document_metadata r with
      | Some ix, Some v, Some md =>
          let query_embedding := tfidf_transform v query in
          match faiss_search ix query_embedding k with
          | Raise e => (w, Raise e)
          | Ok indices =>
              let '((w', relevant_docs), res) :=
                for_each indices (resolve r md) (w, []) in
              (w', match res with
                   | Ok _ => Ok relevant_docs
                   | Raise e => Raise e
                   end)
          end
      | _, _, _ => (w, Ok [])
      end.

(** ** ingest.py *)

Record DocumentIngester : Type := MkDocumentIngester {
  data_dir : string;
  i_vector_store_dir : string;
  (** [None] until [fit_transform] has fitted it *)
  i_vectorizer : option Vectorizer;
  documents : list string;
  i_document_metadata : list doc_meta;
  use_walrus : bool;
  (** the attribute is set only when [use_walrus] *)
  i_doc_map : option DocumentMap
}.

Definition append_document (c : string) (g : DocumentIngester) :=
  MkDocumentIngester (data_dir g) (i_vector_store_dir g) (i_vectorizer g)
    (documents g ++ [c])%list (i_document_metadata g) (use_walrus g)
    (i_doc_map g).

Definition append_metadata (m : doc_meta) (g : DocumentIngester) :=
  MkDocumentIngester (data_dir g) (i_vector_store_dir g) (i_vectorizer g)
    (documents g) (i_document_metadata g ++ [m])%list (use_walrus g)
    (i_doc_map g).

Definition set_i_vectorizer (v : option Vectorizer) (g : DocumentIngester) :=
  MkDocumentIngester (data_dir g) (i_vector_store_dir g) v
    (documents g) (i_document_metadata g) (use_walrus g) (i_doc_map g).

Definition set_i_doc_map (dm : DocumentMap) (g : DocumentIngester) :=
  MkDocumentIngester (data_dir g) (i_vector_store_dir g) (i_vectorizer g)
    (documents g) (i_document_metadata g) (use_walrus g) (Some dm).

(** [DocumentIngester(data_dir, vector_store_dir, use_walrus)]; directories
    are not part of the file system of the model, so [os.makedirs] has no
    counterpart. *)
Definition DocumentIngester_init (dir : option string) (vsd : string)
    (uw : bool) (w : world) : exc DocumentIngester :=
  let dir := default default_data_dir dir in
  if uw then
    match DocumentMap_init default_map_file w with
    | Ok dm => Ok (MkDocumentIngester dir vsd None [] [] uw (Some dm))
    | Raise e => Raise e
    end
  else Ok (MkDocumentIngester dir vsd None [] [] uw None).

Definition supported_extensions : list string :=
  [".py"; ".md"; ".txt"; ".json"; ".sol"].

(** [any(name.endswith(ext) for ext in supported_extensions)] *)
Definition supported (name : string) : bool :=
  existsb (endswith name) supported_extensions.

(** The state of [load_documents]: the world, [self] and the local set
    [processed_files]. *)
Abbreviation lstate := (world * (DocumentIngester * gset string))%type.

(** [self.doc_map] *)
Definition self_doc_map : action lstate DocumentMap :=
  fun s : lstate =>
    (s, match i_doc_map s.2.1 with
        | Some dm => Ok dm
        | None => Raise (Exn AttributeError "doc_map")
        end).

Definition on_self (f : DocumentIngester -> DocumentIngester)
    : action lstate unit :=
  update (fun x : DocumentIngester * gset string => (f x.1, x.2)).

(** The body of the loop over the document map. *)
Definition load_from_walrus_storage (filename : string) : action lstate unit :=
  if supported filename then
    try_except
      (dm <- self_doc_map ;;
       let blob_id := get_blob_id dm filename in
       if truthy blob_id then
         b <- io (retrieve_document (default "" blob_id)) ;;
         content <- lift (utf8_decode b) ;;
         on_self (append_document content) ;;
         dir <- gets (fun s : lstate => data_dir s.2.1) ;;
         let virtual_path := path_join dir filename in
         on_self (append_metadata
                    (DocMeta virtual_path filename blob_id "walrus")) ;;
         update (fun x : DocumentIngester * gset string =>
                   (x.1, {[filename]} ∪ x.2))
       else ret tt)%action
      (fun _ => ret tt)
  else ret tt.

Definition ingest_metadata (file : string) : meta :=
  [("filename", JStr file); ("content_type", JStr "text/plain");
   ("source", JStr "ingest_script")].

(** The body of the loop over the files of one directory. *)
Definition load_from_filesystem (root file : string) : action lstate unit :=
  (processed_files <- gets (fun s : lstate => s.2.2) ;;
   if bool_decide (file ∈ processed_files) then ret tt
   else if supported file then
     let file_path := path_join root file in
     try_except
       (content <- io (read_text file_path) ;;
        on_self (append_document content) ;;
        on_self (append_metadata
                   (DocMeta (abspath file_path) file None "local")) ;;
        uw <- gets (fun s : lstate => use_walrus s.2.1) ;;
        if uw : bool then
          try_except
            (let metadata := ingest_metadata file in
             b <- io (store_document (Str content) metadata) ;;
             dm <- self_doc_map ;;
             fun s : lstate =>
               let '(w', dm') := add_document dm file b (Some metadata) s.1 in
               ((w', (set_i_doc_map dm' s.2.1, s.2.2)), Ok tt))
            (fun _ => ret tt)
        else ret tt)
       (fun _ => ret tt)
   else ret tt)%action.

(** The two loops of [load_documents].  The directory listing is the one of
    the file system as it is when the second loop starts. *)
Definition load_documents_loops : action lstate unit :=
  (uw <- gets (fun s : lstate => use_walrus s.2.1) ;;
   (if uw : bool then
      dm <- self_doc_map ;;
      for_each (list_documents dm) load_from_walrus_storage
    else ret tt) ;;
   top <- gets (fun s : lstate => data_dir s.2.1) ;;
   walk <- gets (fun s : lstate => os_walk (fs s.1) top) ;;
   for_each walk (fun d : string * list string =>
     for_each d.2 (load_from_filesystem d.1)))%action.

Abbreviation istate := (world * DocumentIngester)%type.

Definition load_documents : action istate unit :=
  fun s : istate =>
    let '((w', (g', _)), res) := load_documents_loops (s.1, (s.2, ∅)) in
    ((w', g'), res).

(** [faiss.IndexFlatL2(dimension)] followed by [index.add(embeddings)] *)
Definition IndexFlatL2 : list vec := [].

Definition index_add (ix xs : list vec) : list vec := (ix ++ xs)%list.

Definition saved_message : string :=
  "Successfully saved vector store artifacts to Walrus storage".

Definition failed_message : string :=
  "Failed to save vector store artifacts to Walrus storage".

(** [fit_transform] fits the vectorizer and gives one row for each document,
    in their order. *)
Definition fit_transform (docs : list string) : exc (Vectorizer * list vec) :=
  match tfidf_fit docs with
  | Ok v => Ok (v, map (tfidf_transform v) docs)
  | Raise e => Raise e
  end.

(** The vectorizer and the index that [create_embeddings] builds. *)
Definition build_index (docs : list string) : exc (Vectorizer * list vec) :=
  match fit_transform docs with
  | Ok (v, embeddings) => Ok (v, index_add IndexFlatL2 embeddings)
  | Raise e => Raise e
  end.

Definition create_embeddings : action istate unit :=
  (docs <- gets (fun s : istate => documents s.2) ;;
   match docs with
   | [] => ret tt
   | _ =>
       built <- lift (build_index docs) ;;
       let v := built.1 in
       let ix := built.2 in
       update (set_i_vectorizer (Some v)) ;;
       dir <- gets (fun s : istate => i_vector_store_dir s.2) ;;
       io_ (write_bytes (path_join dir "faiss_index.bin")
              (serialize_index ix)) ;;
       io_ (write_bytes (path_join dir "vectorizer.pkl")
              (pickle_dumps_vectorizer v)) ;;
       md <- gets (fun s : istate => i_document_metadata s.2) ;;
       io_ (write_bytes (path_join dir "metadata.pkl")
              (pickle_dumps_metadata md)) ;;
       uw <- gets (fun s : istate => use_walrus s.2) ;;
       if uw : bool then
         try_except
           (retriever <- io (DocumentRetriever_init dir) ;;
            let retriever :=
              set_document_metadata (Some md)
                (set_vectorizer (Some v) (set_index (Some ix) retriever)) in
            success <-
              (fun s : istate =>
                 let '((w', _), res) :=
                   save_artifacts_to_walrus (s.1, retriever) in
                 ((w', s.2), res)) ;;
            match success with
            | Some true => io_ (log (EvPrint saved_message))
            | _ => io_ (log (EvPrint failed_message))
            end)
           (fun e => io_ (log (EvPrint ("Error saving to Walrus: " +:+ str e))))
       else ret tt
   end)%action.

Definition process_documents : action istate unit :=
  (load_documents ;; create_embeddings)%action.

(** ** app.py: the append handler *)

(** The module-level objects the handler uses: [doc_map] and
    [rag_bot.retriever]. *)
Record App : Type := MkApp {
  app_doc_map : DocumentMap;
  rag_retriever : DocumentRetriever
}.

Inductive http_result : Type :=
  | Json (status : Z) (body : list (string * jval)).

Abbreviation astate := (world * App)%type.

(** [os.system('python ingest.py')], with [--no-walrus] when [uw] is false:
    a fresh ingester runs in the same world; a failure of the child process
    is not an exception of the parent. *)
Definition os_system_ingest (uw : bool) (w : world) : world :=
  let w0 := log (EvSystem uw) w in
  match DocumentIngester_init None "vector_store" uw w0 with
  | Ok g => (process_documents (w0, g)).1.1
  | Raise _ => w0
  end.

(** [rag_bot.retriever.load_artifacts()] *)
Definition reload : action astate unit :=
  fun s : astate =>
    let '((w', r'), res) := load_artifacts (s.1, rag_retriever s.2) in
    ((w', MkApp (app_doc_map s.2) r'), res).

Definition newline : string := String (Ascii.ascii_of_nat 10) "".

Definition ingest_and_answer (filename : string) : action astate http_result :=
  (io_ (os_system_ingest true) ;;
   reload ;;
   ret (Json 200 [("success", JBool true); ("filename", JStr filename);
                  ("storage", JStr "walrus")]))%action.

(** The local writes of the handlers: [open] may raise. *)
Context `{Disk}.

(** [with open(path, 'w' or 'wb') as f: f.write(data)] *)
Definition open_and_write (path : string) (data : bytes)
    : action world unit :=
  fun w =>
    match open_for_writing path with
    | Ok _ => (write_bytes path data w, Ok tt)
    | Raise e => (w, Raise e)
    end.

(** [with open(path, 'a', encoding='utf-8') as f: f.write(text)] *)
Definition open_and_append (path : string) (text : string)
    : action world unit :=
  fun w =>
    match open_for_writing path with
    | Ok _ => (append_text path text w, Ok tt)
    | Raise e => (w, Raise e)
    end.

(** [doc_map.add_document(...)] on the module-level map: the entry is
    assigned in memory, then the map file is written; when the file cannot
    be opened the exception leaves the entry in memory. *)
Definition app_add_document (filename b : string) (metadata : meta)
    : action astate unit :=
  fun s : astate =>
    let '(w', dm') := add_document (app_doc_map s.2) filename b
                        (Some metadata) s.1 in
    match open_for_writing (map_file (app_doc_map s.2)) with
    | Ok _ => ((w', MkApp dm' (rag_retriever s.2)), Ok tt)
    | Raise e => (((now s.1).1, MkApp dm' (rag_retriever s.2)), Raise e)
    end.

(** The metadata of the new blob when the document had a blob already. *)
Definition updated_metadata (filename t : string) : meta :=
  [("filename", JStr filename); ("content_type", JStr "text/plain");
   ("timestamp", JStr t); ("updated", JBool true);
   ("source", JStr "web_append")].

(** The metadata of the new blob when the document was only on disk. *)
Definition appended_metadata (filename t : string) : meta :=
  [("filename", JStr filename); ("content_type", JStr "text/plain");
   ("timestamp", JStr t); ("source", JStr "web_append")].

(** The body of the outer [try] of [append_to_txt_file]. *)
Definition append_via_walrus (filename content : string)
    : action astate http_result :=
  (blob_id <- gets (fun s : astate => get_blob_id (app_doc_map s.2) filename) ;;
   if truthy blob_id then
     b <- io (retrieve_document (default "" blob_id)) ;;
     existing_content <- lift (utf8_decode b) ;;
     let new_content := existing_content +:+ newline +:+ content in
     t <- io (fun w => let '(w', t) := now w in (w', Ok t)) ;;
     let metadata := updated_metadata filename t in
     new_blob_id <-
       io (store_document (Bytes (utf8_encode new_content)) metadata) ;;
     app_add_document filename new_blob_id metadata ;;
     let file_path := os_path_join DATA_DIR filename in
     io (open_and_write file_path (utf8_encode new_content)) ;;
     ingest_and_answer filename
   else
     let file_path := os_path_join DATA_DIR filename in
     ex <- gets (fun s : astate => exists_ file_path s.1) ;;
     if negb ex then
       ret (Json 404
              [("error", JStr "File does not exist in Walrus or locally")])
     else
       existing_content <- io (read_text file_path) ;;
       let new_content := existing_content +:+ newline +:+ content in
       t <- io (fun w => let '(w', t) := now w in (w', Ok t)) ;;
       let metadata := appended_metadata filename t in
       b <- io (store_document (Bytes (utf8_encode new_content)) metadata) ;;
       app_add_document filename b metadata ;;
       io (open_and_write file_path (utf8_encode new_content)) ;;
       ingest_and_answer filename)%action.

(** The handler of the outer [except Exception as e]. *)
Definition append_locally (filename content : string) (e : exn)
    : action astate http_result :=
  try_except
    (let file_path := os_path_join DATA_DIR filename in
     ex <- gets (fun s : astate => exists_ file_path s.1) ;;
     if negb ex then
       ret (Json 404 [("error", JStr "File does not exist locally")])
     else
       io (open_and_append file_path (newline +:+ content)) ;;
       io_ (os_system_ingest false) ;;
       reload ;;
       ret (Json 200 [("success", JBool true); ("filename", JStr filename);
                      ("storage", JStr "local");
                      ("walrus_error", JStr (str e))]))%action
    (fun local_e =>
       ret (Json 500
              [("error", JStr ("Failed to append to file: " +:+ str local_e))])).

(** [append_to_txt_file], with the body of the request.  [data.get] is
    outside the [try]: on a body that is not an object it raises. *)
Definition append_to_txt_file (data : request_json)
    : action astate http_result :=
  match data with
  | NotAnObject =>
      lift (Raise (Exn AttributeError "object has no attribute get"))
  | JsonObject filename content =>
      if negb (truthy filename) || negb (truthy content) then
        ret (Json 400 [("error", JStr "Missing filename or content")])
      else
        let filename := default "" filename in
        let content := default "" content in
        try_except (append_via_walrus filename content)
          (append_locally filename content)
  end.

End Model.

(** * Content resolution as the specification words it

    For one record of [document_metadata]: look up the blob id of the file in
    the document map; if there is one, attempt the remote retrieval; on a
    missing mapping, a remote error or a decode error read the local file
    recorded in the record; if neither gives content, there is no result. *)

Section Specification.
Context `{Environment} `{Libraries}.

(** The blob id the map holds for a file; an empty id is no id. *)
Definition blob_id_for (dm : DocumentMap) (f : string) : option string :=
  match document_map dm !! f with
  | Some e => if String.eqb (blob_id e) "" then None else Some (blob_id e)
  | None => None
  end.

Definition from_remote (dm : DocumentMap) (d : doc_meta) (w : world)
    : world * option doc :=
  match blob_id_for dm (file_name d) with
  | None => (w, None)
  | Some b =>
      let '(w', res) := retrieve_document b w in
      (w', match res with
           | Raise _ => None
           | Ok data =>
               match utf8_decode data with
               | Raise _ => None
               | Ok text => Some (Doc text (file_name d) (file_path d) "walrus")
               end
           end)
  end.

Definition from_local (d : doc_meta) (w : world) : world * option doc :=
  if exists_ (file_path d) w then
    let '(w', res) := read_text (file_path d) w in
    (w', match res with
         | Raise _ => None
         | Ok text => Some (Doc text (file_name d) (file_path d) "local")
         end)
  else (w, None).

Definition resolve_spec (dm : DocumentMap) (d : doc_meta) (w : world)
    : world * option doc :=
  match from_remote dm d w with
  | (w', Some x) => (w', Some x)
  | (w', None) => from_local d w'
  end.

(** The results for a sequence of records, in order, without the records
    that gave no content. *)
Fixpoint resolve_all_spec (dm : DocumentMap) (ds : list doc_meta) (w : world)
    : world * list doc :=
  match ds with
  | [] => (w, [])
  | d :: ds' =>
      let '(w1, o) := resolve_spec dm d w in
      let '(w2, xs) := resolve_all_spec dm ds' w1 in
      (w2, (option_list o ++ xs)%list)
  end.

(** The records the loop of [retrieve_documents] picks for the labels of a
    search: those of the labels below [len(document_metadata)], read with
    Python's indexing. *)
Definition selected (md : list doc_meta) (labels : list Z) : list doc_meta :=
  omap (fun idx => if idx <? Z.of_nat (length md)
                   then match py_index md idx with
                        | Ok d => Some d
                        | Raise _ => None
                        end
                   else None) labels.

(** A fixed external environment: a retrieval leaves the state of the blob
    service as it was. *)
Definition fixed_environment : Prop :=
  forall (e : ext) (b : string), (api_retrieve e b).1 = e.

(** Two worlds with the same files and the same state outside; only the
    record of past actions may differ. *)
Definition same_state (w w0 : world) : Prop :=
  fs w = fs w0 ∧ outside w = outside w0.

(** ** Where loaded artifacts come from *)

Definition is_retrieval (ev : event) : bool :=
  match ev with
  | EvRetrieve _ _ => true
  | _ => false
  end.

Definition is_store (ev : event) : bool :=
  match ev with
  | EvStore _ _ _ => true
  | _ => false
  end.

(** A store that the blob service accepted. *)
Definition is_stored (ev : event) : bool :=
  match ev with
  | EvStore _ _ (Ok _) => true
  | _ => false
  end.

(** All three artifacts of [r'] were decoded from blobs retrieved under the
    ids of the side-table of [r], and [evs] are the actions of doing so. *)
Definition loaded_from_walrus (r r' : DocumentRetriever) (evs : list event)
    : Prop :=
  ∃ ii iv im bi bv bm ix v md,
    vector_store_blob_ids r !! "index" = Some ii
    ∧ vector_store_blob_ids r !! "vectorizer" = Some iv
    ∧ vector_store_blob_ids r !! "metadata" = Some im
    ∧ evs = [EvRetrieve ii (Ok bi);
             EvWrite (path_join (vector_store_dir r) "temp_faiss_index.bin") bi;
             EvRetrieve iv (Ok bv); EvRetrieve im (Ok bm)]
    ∧ read_index bi = Ok ix
    ∧ pickle_loads_vectorizer bv = Ok v
    ∧ pickle_loads_metadata bm = Ok md
    ∧ index r' = Some ix
    ∧ vectorizer r' = Some v
    ∧ document_metadata r' = Some md.

(** An artifact that is absent or was decoded from the local file [path]. *)
Definition local_artifact {A} (w : world) (path : string)
    (loads : bytes -> exc A) (o : option A) : Prop :=
  o = None ∨ ∃ b a, fs w !! path = Some b ∧ loads b = Ok a ∧ o = Some a.

Definition loaded_from_local_disk (w : world) (r' : DocumentRetriever) : Prop :=
  local_artifact w (path_join (vector_store_dir r') "faiss_index.bin")
    read_index (index r')
  ∧ local_artifact w (path_join (vector_store_dir r') "vectorizer.pkl")
      pickle_loads_vectorizer (vectorizer r')
  ∧ local_artifact w (path_join (vector_store_dir r') "metadata.pkl")
      pickle_loads_metadata (document_metadata r').

(** ** The prior content of a document *)

(** How the append handler obtains the prior content [p] of [f]: from the
    blob of [f] when the map has one, from the local file otherwise.  [ev]
    is the action of reading it, [e] the state outside afterwards, [m] the
    metadata the new blob gets at a given time. *)
Inductive prior_content (dm : DocumentMap) (w : world) (f : string)
    : string -> event -> ext -> (string -> meta) -> Prop :=
  | prior_remote old e txt data p :
      blob_id_for dm f = Some old ->
      api_retrieve (outside w) old = (e, Ok (Response 200 txt (Ok data))) ->
      utf8_decode data = Ok p ->
      prior_content dm w f p (EvRetrieve old (Ok data)) e (updated_metadata f)
  | prior_local data p :
      blob_id_for dm f = None ->
      fs w !! os_path_join DATA_DIR f = Some data ->
      utf8_decode data = Ok p ->
      prior_content dm w f p (EvRead (os_path_join DATA_DIR f) (Ok p))
        (outside w) (appended_metadata f).

(** ** What a record of [document_metadata] describes *)

(** The record [m] describes the text [c]: [c] was decoded from the blob the
    document map [dm0] holds for [file_name m], or was read from the local
    file the record names; [tr] is the record of the actions performed. *)
Definition describes (dm0 : option DocumentMap) (dir : string)
    (tr : list event) (c : string) (m : doc_meta) : Prop :=
  (source m = "walrus"
   ∧ file_path m = path_join dir (file_name m)
   ∧ ∃ dm b data,
       dm0 = Some dm
       ∧ get_blob_id dm (file_name m) = Some b
       ∧ meta_blob_id m = Some b
       ∧ EvRetrieve b (Ok data) ∈ tr
       ∧ utf8_decode data = Ok c)
  ∨ (source m = "local"
     ∧ meta_blob_id m = None
     ∧ ∃ root,
         file_path m = abspath (path_join root (file_name m))
         ∧ EvRead (path_join root (file_name m)) (Ok c) ∈ tr).

(** The invariant of the loops of [load_documents]. *)
Definition loaded_in_lockstep (dm0 : option DocumentMap) (g0 : DocumentIngester)
    (tr0 : list event) (s : world * (DocumentIngester * gset string)) : Prop :=
  data_dir s.2.1 = data_dir g0
  ∧ i_vector_store_dir s.2.1 = i_vector_store_dir g0
  ∧ use_walrus s.2.1 = use_walrus g0
  ∧ i_vectorizer s.2.1 = i_vectorizer g0
  ∧ tr0 `prefix_of` trace s.1
  ∧ Forall2 (describes dm0 (data_dir g0) (trace s.1))
      (documents s.2.1) (i_document_metadata s.2.1).

End Specification.

(** * A concrete environment

    A small blob service, a one-directory file system and exact stand-ins
    for the libraries, on which the model can be run. *)

Module Demo.

(** [s] without the prefix [p], when it starts with it. *)
Fixpoint strip_prefix (p s : string) : option string :=
  match p, s with
  | EmptyString, _ => Some s
  | String a p', String b s' =>
      if Ascii.eqb a b then strip_prefix p' s' else None
  | String _ _, EmptyString => None
  end.

Fixpoint assoc (k : string) (l : list (string * bytes)) : option bytes :=
  match l with
  | [] => None
  | (k', v) :: l' => if String.eqb k k' then Some v else assoc k l'
  end.

Definition blob_name (data : bytes) : string := "blob:" +:+ data.

Definition unreachable {A} : exc A :=
  Raise (Exn OtherException "connection refused").

(** The service keeps the blobs stored so far and names a blob after its
    data.  When [up] is false every request fails. *)
Definition env (up : bool) : Environment := {|
  ext := list (string * bytes);
  api_store := fun blobs data _ =>
    if up then ((blob_name data, data) :: blobs,
                Ok (Response 200 "" (Ok (blob_name data))))
    else (blobs, unreachable);
  api_retrieve := fun blobs b =>
    if up then
      (blobs, Ok match assoc b blobs with
                 | Some data => Response 200 "" (Ok data)
                 | None => Response 404 "no such blob"
                             (Raise (Exn KeyError "data"))
                 end)
    else (blobs, unreachable);
  clock := fun blobs => (blobs, "2024-01-01T00:00:00");
  os_walk := fun files top =>
    [(top, omap (strip_prefix (top +:+ "/")) (map_to_list files).*1)];
  abspath := fun p => "/srv/" +:+ p;
  DATA_DIR := "data";
  default_data_dir := "data";
  utf8_decode := Ok;
  utf8_encode := fun s => s
|}.

Definition sq_dist (a b : list Z) : Z :=
  foldr Z.add 0 (zip_with (fun x y => (x - y) * (x - y)) a b).

(** Insertion after the hits that are at most as far, so that of two
    vectors at the same distance the one added first comes first. *)
Fixpoint insert_hit (h : Z * Z) (l : list (Z * Z)) : list (Z * Z) :=
  match l with
  | [] => [h]
  | h' :: l' => if h.1 <? h'.1 then h :: l else h' :: insert_hit h l'
  end.

Definition ranked (xb : list (list Z)) (q : list Z) : list Z :=
  (foldl (fun acc h => insert_hit h acc) []
     (imap (fun i x => (sq_dist x q, Z.of_nat i)) xb)).*2.

(** Brute-force search: the [k] nearest labels, then [-1] up to [k]. *)
Definition flat_search (xb : list (list Z)) (q : list Z) (k : Z)
    : exc (list Z) :=
  if k <=? 0 then Raise (Exn AssertionError "k > 0")
  else Ok (take (Z.to_nat k) (ranked xb q)
           ++ replicate (Z.to_nat k - length xb) (-1))%list.

Definition corrupt {A} (b : bytes) (a : A) : exc A :=
  if String.eqb b "corrupt" then Raise (Exn OtherException "corrupt artifact")
  else Ok a.

(** A document is embedded as its length; serialized artifacts keep only a
    tag. *)
Definition lib : Libraries := {|
  Vectorizer := unit;
  vec := list Z;
  tfidf_fit := fun docs =>
    if forallb (String.eqb "") docs
    then Raise (Exn ValueError "empty vocabulary") else Ok tt;
  tfidf_transform := fun _ s => [Z.of_nat (String.length s)];
  faiss_search := flat_search;
  serialize_index := fun _ => "faiss";
  read_index := fun b => corrupt b [];
  pickle_dumps_vectorizer := fun _ => "vectorizer";
  pickle_loads_vectorizer := fun b => corrupt b tt;
  pickle_dumps_metadata := fun _ => "metadata";
  pickle_loads_metadata := fun b => corrupt b [];
  json_dump_map := fun _ => "{}";
  json_load_map := fun b =>
    if String.eqb b "{}" then Ok ∅
    else Raise (Exn JSONDecodeError "Expecting value");
  json_dump_ids := fun _ => "{}";
  json_load_ids := fun b =>
    if String.eqb b "{}" then Ok ∅
    else Raise (Exn JSONDecodeError "Expecting value")
|}.

Definition alpha : doc_meta := DocMeta "data/alpha.txt" "alpha.txt" None "local".

Definition files : gmap string bytes :=
  {[ "data/alpha.txt" := "apples and bananas" ]}.

Definition start (up : bool) : @world (env up) :=
  @World (env up) files [] [].

(** A retriever serving the one-document corpus [alpha]. *)
Definition serving : @DocumentRetriever lib :=
  @MkDocumentRetriever lib "vector_store" (Some [[18]]) (Some tt)
    (Some [alpha]) (MkDocumentMap "document_map.json" ∅) ∅.

(** An ingester as [DocumentIngester(use_walrus=True)] builds it when there
    is no map file. *)
Definition fresh : @DocumentIngester lib :=
  @MkDocumentIngester lib "data" "vector_store" None [] [] true
    (Some (MkDocumentMap "document_map.json" ∅)).

(** An ingester that has loaded [alpha]. *)
Definition loaded : @DocumentIngester lib :=
  @MkDocumentIngester lib "data" "vector_store" None
    ["apples and bananas"] [alpha] true
    (Some (MkDocumentMap "document_map.json" ∅)).

(** The module-level objects of app.py at start-up. *)
Definition app : @App lib :=
  @MkApp lib (MkDocumentMap "document_map.json" ∅) serving.

(** A disk on which every path can be opened for writing. *)
Definition disk : Disk := {| open_for_writing := fun _ => Ok tt |}.

End Demo.

(** * The rest of walrus_client.py and the upload handler of app.py *)

(** One element of the [blobs] array of [GET /api/v1/list]; a field is
    [None] when the key is missing. *)
Record blob : Type := Blob {
  b_id : option string;
  b_metadata : option meta;
  b_timestamp : option string;
  b_size : option Z
}.

(** [GET /api/v1/list] *)
Class Listing `{Environment} : Type := {
  api_list : ext -> ext * exc (response (list blob))
}.


Section ModelMore.
Context `{Environment} `{Libraries} `{!Listing} `{Disk}.




Definition upload_metadata (filename t : string) : meta :=
  [("filename", JStr filename); ("content_type", JStr "text/plain");
   ("timestamp", JStr t); ("source", JStr "web_upload")].

(** The body of the outer [try] of [upload_txt_file]. *)
Definition upload_via_walrus (filename : string) (file_content : bytes)
    : action (world * App) http_result :=
  (t <- io (fun w => let '(w', t) := now w in (w', Ok t)) ;;
   let metadata := upload_metadata filename t in
   b <- io (store_document (Bytes file_content) metadata) ;;
   app_add_document filename b metadata ;;
   let save_path := os_path_join DATA_DIR filename in
   io (open_and_write save_path file_content) ;;
   io_ (os_system_ingest true) ;;
   reload ;;
   ret (Json 200 [("success", JBool true); ("filename", JStr filename);
                  ("blob_id", JStr b); ("storage", JStr "walrus")]))%action.

(** The handler of the outer [except Exception as e]. *)
Definition upload_locally (filename : string) (file_content : bytes) (e : exn)
    : action (world * App) http_result :=
  try_except
    (let save_path := os_path_join DATA_DIR filename in
     io (open_and_write save_path file_content) ;;
     io_ (os_system_ingest false) ;;
     reload ;;
     ret (Json 200 [("success", JBool true); ("filename", JStr filename);
                    ("storage", JStr "local");
                    ("walrus_error", JStr (str e))]))%action
    (fun local_e =>
       ret (Json 500
              [("error", JStr ("Failed to save file: " +:+ str local_e))])).

(** [upload_txt_file], with the part [file] of the request ([None] when it
    is missing): its name and its bytes. *)
Definition upload_txt_file (file : option (string * bytes))
    : action (world * App) http_result :=
  match file with
  | None => ret (Json 400 [("error", JStr "No file part")])
  | Some (filename, file_content) =>
      if String.eqb filename "" || negb (endswith filename ".txt") then
        ret (Json 400 [("error", JStr "Invalid file name")])
      else
        try_except (upload_via_walrus filename file_content)
          (upload_locally filename file_content)
  end.

End ModelMore.

(** * Further notions used in the statements *)

Section Notions.
Context `{Environment} `{Libraries}.

Definition is_read (ev : event) : bool :=
  match ev with
  | EvRead _ _ => true
  | _ => false
  end.

(** The blob service cannot be reached: every retrieval raises. *)
Definition retrieval_fails : Prop :=
  forall (w : world) (b : string), exists x, (retrieve_document b w).2 = Raise x.

(** What reading the local file of a record gives. *)
Definition local_doc (w : world) (d : doc_meta) : option doc :=
  match fs w !! file_path d with
  | Some data =>
      match utf8_decode data with
      | Ok content0 => Some (Doc content0 (file_name d) (file_path d) "local")
      | Raise _ => None
      end
  | None => None
  end.

(** The status of an answer. *)
Definition status_of (j : http_result) : Z :=
  match j with Json st _ => st end.

(** What [store_document] gives for the bytes [data] and the metadata [m]
    when the state outside is [e]: the state afterwards with the blob id, or
    with the exception raised, be it by [requests.post], for an answer whose
    status is not 200 or for an answer without [blob_id]. *)
Definition store_outcome (e : ext) (data : bytes) (m : meta)
    : ext * exc string :=
  let r := store_document (Bytes data) m (World ∅ e []) in
  (outside r.1, r.2).

End Notions.

(** * A second concrete environment

    Codecs that give back the artifacts of the one-document corpus, a map
    file with undecodable bytes, and a listing. *)

Module Demo2.

Definition alpha_entry : entry := Entry "blob:a" "2024-01-01T00:00:00" [].

Definition lib : Libraries := {|
  Vectorizer := unit;
  vec := list Z;
  tfidf_fit := fun docs =>
    if forallb (String.eqb "") docs
    then Raise (Exn ValueError "empty vocabulary") else Ok tt;
  tfidf_transform := fun _ s => [Z.of_nat (String.length s)];
  faiss_search := Demo.flat_search;
  serialize_index := fun _ => "faiss";
  read_index := fun b => Demo.corrupt b [[18]];
  pickle_dumps_vectorizer := fun _ => "vectorizer";
  pickle_loads_vectorizer := fun b => Demo.corrupt b tt;
  pickle_dumps_metadata := fun _ => "metadata";
  pickle_loads_metadata := fun b => Demo.corrupt b [Demo.alpha];
  json_dump_map := fun m => if bool_decide (m = ∅) then "{}" else "alpha";
  json_load_map := fun b =>
    if String.eqb b "{}" then Ok ∅
    else if String.eqb b "alpha" then Ok {[ "alpha.txt" := alpha_entry ]}
    else if String.eqb b "bad bytes"
    then Raise (Exn UnicodeDecodeError "invalid start byte")
    else Raise (Exn JSONDecodeError "Expecting value");
  json_dump_ids := fun _ => "{}";
  json_load_ids := fun b =>
    if String.eqb b "{}" then Ok ∅
    else Raise (Exn JSONDecodeError "Expecting value")
|}.

(** The listing knows the blobs stored so far, without metadata. *)
Definition listing (up : bool) : @Listing (Demo.env up) := {|
  api_list := fun blobs : @ext (Demo.env up) =>
    if up then
      (blobs, Ok (Response 200 ""
                    (Ok (map (fun kv : string * bytes =>
                                Blob (Some kv.1) None None
                                  (Some (Z.of_nat (String.length kv.2))))
                           blobs))))
    else (blobs, Demo.unreachable)
|}.

(** An ingester run with [--no-walrus]. *)
Definition offline : @DocumentIngester lib :=
  @MkDocumentIngester lib "data" "vector_store" None [] [] false None.

Definition loaded : @DocumentIngester lib :=
  @MkDocumentIngester lib "data" "vector_store" None
    ["apples and bananas"] [Demo.alpha] false None.

(** A retriever that has loaded nothing and has no side-table. *)
Definition blank : @DocumentRetriever lib :=
  @MkDocumentRetriever lib "vector_store" None None None
    (MkDocumentMap "document_map.json" ∅) ∅.

Definition serving : @DocumentRetriever lib :=
  @MkDocumentRetriever lib "vector_store" (Some [[18]]) (Some tt)
    (Some [Demo.alpha]) (MkDocumentMap "document_map.json" ∅) ∅.

Definition app : @App lib :=
  @MkApp lib (MkDocumentMap "document_map.json" ∅) serving.

(** A world whose map file cannot be decoded. *)
Definition undecodable (up : bool) : @world (Demo.env up) :=
  @World (Demo.env up) {[ "document_map.json" := "bad bytes" ]} [] [].

(** A blob service that can be reached and answers every store with the
    status 507; retrievals are answered as by [Demo.env true]. *)
Definition full : Environment := {|
  ext := list (string * bytes);
  api_store := fun blobs _ _ =>
    (blobs, Ok (Response 507 "insufficient storage"
                  (Raise (Exn KeyError "blob_id"))));
  api_retrieve := @api_retrieve (Demo.env true);
  clock := @clock (Demo.env true);
  os_walk := @os_walk (Demo.env true);
  abspath := @abspath (Demo.env true);
  DATA_DIR := "data";
  default_data_dir := "data";
  utf8_decode := Ok;
  utf8_encode := fun s => s
|}.

Definition full_start : @world full := @World full Demo.files [] [].

(** A disk on which the paths below [dir] cannot be opened for writing,
    as when the directory does not exist. *)
Definition missing (dir : string) : Disk := {|
  open_for_writing := fun path =>
    match Demo.strip_prefix (dir +:+ "/") path with
    | Some _ => Raise (Exn FileNotFoundError path)
    | None => Ok tt
    end
|}.

End Demo2.

(** * Properties *)

Section Properties.
Context `{Environment} `{Libraries}.

(** ** Document map *)

Lemma get_blob_id_add dm f b m w :
  get_blob_id (add_document dm f b m w).2 f = Some b.
Proof.
  unfold add_document, get_blob_id.
  destruct (now w) as [w1 t]; simpl.
  by rewrite lookup_insert_eq.
Qed.

Lemma get_blob_id_remove dm f w :
  get_blob_id (remove_document dm f w).1.2 f = None.
Proof.
  unfold remove_document, document_exists, get_blob_id.
  case_bool_decide as Hin; simpl.
  - by rewrite lookup_delete_eq.
  - destruct (document_map dm !! f) eqn:E; [|done].
    exfalso; apply Hin; eauto.
Qed.

(** C7: after [add_document f b m], [get_blob_id f] is [b]; for a file name
    [g] that is not in the map, and for [f] once it has been removed, it is
    [None], and nothing is raised. *)
Theorem add_then_get_blob_id dm (f g b : string) m w
    (Hg : document_map dm !! g = None) :
  get_blob_id (add_document dm f b m w).2 f = Some b
  ∧ get_blob_id dm g = None
  ∧ get_blob_id (remove_document dm f w).1.2 f = None.
Proof.
  split; [apply get_blob_id_add|].
  split; [|apply get_blob_id_remove].
  unfold get_blob_id. by rewrite Hg.
Qed.

Lemma load_map_fresh path w :
  (fs w !! path = None
   ∨ ∃ b e, fs w !! path = Some b ∧ json_load_map b = Raise e
            ∧ class_of e = JSONDecodeError) →
  _load_map path w = Ok ∅.
Proof.
  unfold _load_map, open_read.
  intros [Hnone | (b & e & Hb & Hload & Hcls)].
  - by rewrite Hnone.
  - by rewrite Hb, Hload, Hcls.
Qed.

(** C10: a map file that is missing or holds invalid JSON gives an empty
    [DocumentMap] and no exception; every lookup in it is [None], the list of
    documents is empty, removing from it changes nothing, and the first
    [add_document] replaces the file by the dump of the one-record map. *)
Theorem missing_or_invalid_map_file path w
    (Hfile : fs w !! path = None
             ∨ ∃ b e, fs w !! path = Some b ∧ json_load_map b = Raise e
                      ∧ class_of e = JSONDecodeError) :
  ∃ dm, DocumentMap_init path w = Ok dm
    ∧ (∀ f, get_blob_id dm f = None)
    ∧ list_documents dm = []
    ∧ (∀ f, remove_document dm f w = (w, dm, false))
    ∧ ∀ f b m,
        document_map (add_document dm f b m w).2
          = {[ f := Entry b (now w).2 (default [] m) ]}
        ∧ fs (add_document dm f b m w).1 !! path
          = Some (json_dump_map {[ f := Entry b (now w).2 (default [] m) ]}).
Proof.
  exists (MkDocumentMap path ∅).
  unfold DocumentMap_init. rewrite (load_map_fresh _ _ Hfile).
  split; [done|]. split; [done|]. split.
  { unfold list_documents; simpl. by rewrite map_to_list_empty. }
  split.
  { intros f. unfold remove_document, document_exists; simpl.
    rewrite lookup_empty. case_bool_decide as Hin; [|done].
    by destruct Hin. }
  intros f b m. unfold add_document, save_map, write_bytes, now; simpl.
  destruct (clock (outside w)) as [e t]; simpl.
  rewrite insert_empty. split; [done|].
  by rewrite lookup_insert_eq.
Qed.

(** ** Retrieval *)

(** C4: when the index, the vectorizer or the document metadata is absent,
    [retrieve_documents] returns the empty list for every query and every
    [k], raises nothing and leaves the world as it is. *)
Theorem degraded_retriever_returns_empty r (q : string) (k : Z) w
    (Habsent : index r = None ∨ vectorizer r = None
               ∨ document_metadata r = None) :
  retrieve_documents r q k w = (w, Ok []).
Proof.
  unfold retrieve_documents, not_initialized.
  destruct Habsent as [E | [E | E]]; rewrite E; simpl.
  - done.
  - by rewrite orb_true_r.
  - by rewrite orb_true_r.
Qed.

Lemma truthy_blob_id_for dm f :
  (if truthy (get_blob_id dm f) then Some (default "" (get_blob_id dm f)) else None)
  = blob_id_for dm f.
Proof.
  unfold get_blob_id, blob_id_for, truthy.
  destruct (document_map dm !! f) as [e|]; [|done]; simpl.
  by destruct (String.eqb (blob_id e) "").
Qed.

Lemma resolve_step r md idx w acc :
  resolve r md idx (w, acc) =
    if idx <? Z.of_nat (length md) then
      match py_index md idx with
      | Raise e => ((w, acc), Raise e)
      | Ok d =>
          let '(w', o) := resolve_spec (doc_map r) d w in
          ((w', (acc ++ option_list o)%list), Ok tt)
      end
    else ((w, acc), Ok tt).
Proof.
  unfold resolve. destruct (idx <? Z.of_nat (length md)); [|done].
  unfold bind at 1, lift at 1.
  destruct (py_index md idx) as [d|e]; [|done].
  unfold resolve_spec, from_remote, from_local.
  rewrite <- truthy_blob_id_for.
  unfold try_except, bind, lift, io, update, gets, ret; cbn [fst snd].
  destruct (truthy (get_blob_id (doc_map r) (file_name d))); cbn [fst snd].
  - destruct (retrieve_document _ w) as [w1 [data|e]]; cbn [fst snd].
    + destruct (utf8_decode data) as [text|e]; cbn [fst snd]; [done|].
      destruct (exists_ (file_path d) w1); cbn [fst snd];
        [|by rewrite app_nil_r].
      destruct (read_text (file_path d) w1) as [w2 [text|e']];
        cbn [fst snd option_list]; [done|].
      by rewrite app_nil_r.
    + destruct (exists_ (file_path d) w1); cbn [fst snd];
        [|by rewrite app_nil_r].
      destruct (read_text (file_path d) w1) as [w2 [text|e']];
        cbn [fst snd option_list]; [done|].
      by rewrite app_nil_r.
  - destruct (exists_ (file_path d) w); cbn [fst snd];
      [|by rewrite app_nil_r].
    destruct (read_text (file_path d) w) as [w2 [text|e']];
      cbn [fst snd option_list]; [done|].
    by rewrite app_nil_r.
Qed.

Lemma py_index_in_range {A} (l : list A) (i : Z) :
  - Z.of_nat (length l) ≤ i → i < Z.of_nat (length l) →
  ∃ x, py_index l i = Ok x.
Proof.
  intros Hlo Hhi. unfold py_index.
  set (j := if i <? 0 then i + Z.of_nat (length l) else i).
  assert (0 ≤ j < Z.of_nat (length l)) as Hj.
  { unfold j. destruct (Z.ltb_spec i 0); lia. }
  destruct (Z.leb_spec 0 j); [|lia].
  destruct (Z.ltb_spec j (Z.of_nat (length l))); [|lia]. simpl.
  destruct (lookup_lt_is_Some_2 l (Z.to_nat j)) as [x Hx]; [lia|].
  rewrite Hx. eauto.
Qed.

Lemma for_each_resolve r md labels : ∀ w acc,
  Forall (fun i => - Z.of_nat (length md) ≤ i) labels →
  ∃ w' docs,
    for_each labels (resolve r md) (w, acc) = ((w', (acc ++ docs)%list), Ok tt)
    ∧ resolve_all_spec (doc_map r) (selected md labels) w = (w', docs).
Proof.
  induction labels as [|idx labels IH]; intros w acc Hall.
  - exists w, []. by rewrite app_nil_r.
  - apply Forall_cons in Hall as [Hidx Hall].
    cbn [for_each]. unfold bind. rewrite resolve_step.
    unfold selected. cbn [omap list_omap]. fold (selected md labels).
    destruct (Z.ltb_spec idx (Z.of_nat (length md))) as [Hlt|Hge].
    + destruct (py_index_in_range md idx Hidx Hlt) as [d Hd]. rewrite Hd.
      cbn [resolve_all_spec].
      destruct (resolve_spec (doc_map r) d w) as [w1 o].
      destruct (IH w1 (acc ++ option_list o)%list Hall) as (w' & docs & Hrun & Hspec).
      exists w', (option_list o ++ docs)%list.
      rewrite Hrun, Hspec. by rewrite app_assoc.
    + apply IH, Hall.
Qed.

Lemma resolve_all_spec_length dm ds : ∀ w,
  (length (resolve_all_spec dm ds w).2 ≤ length ds)%nat.
Proof.
  induction ds as [|d ds IH]; intros w; cbn [resolve_all_spec]; [done|].
  destruct (resolve_spec dm d w) as [w1 o].
  specialize (IH w1). destruct (resolve_all_spec dm ds w1) as [w2 xs].
  cbn [snd] in *. rewrite length_app. destruct o; simpl; lia.
Qed.

Lemma selected_length md labels :
  (length (selected md labels) ≤ length labels)%nat.
Proof.
  unfold selected. induction labels as [|i l IH]; [done|].
  cbn [omap list_omap]. 
  destruct (if i <? Z.of_nat (length md) then _ else _); simpl; lia.
Qed.

(** C2: for the labels a search returned, [retrieve_documents] raises
    nothing and returns, in order, what the resolution of the specification
    gives for the records picked by the labels: the remote copy when the map
    has a blob id and the retrieval and the decoding succeed, otherwise the
    local file of the record, otherwise nothing for that record; the result
    may be shorter than the row of labels. *)
Theorem retrieve_documents_resolution r (q : string) (k : Z) w ix v m md labels
    (Hix : index r = Some ix) (Hv : vectorizer r = Some v)
    (Hmd : document_metadata r = Some (m :: md))
    (Hsearch : faiss_search ix (tfidf_transform v q) k = Ok labels)
    (Hlabels : Forall (fun i => -1 ≤ i) labels) :
  ∃ w' docs,
    retrieve_documents r q k w = (w', Ok docs)
    ∧ resolve_all_spec (doc_map r) (selected (m :: md) labels) w = (w', docs)
    ∧ (length docs ≤ length labels)%nat.
Proof.
  unfold retrieve_documents, not_initialized.
  rewrite Hix, Hv, Hmd; cbn [negb orb bool_decide]. 
  assert (Forall (fun i => - Z.of_nat (length (m :: md)) ≤ i) labels) as Hall.
  { eapply Forall_impl; [exact Hlabels|]. intros i Hi. cbn beta in Hi |- *. cbn [length]. lia. }
  destruct (for_each_resolve r (m :: md) labels w [] Hall)
    as (w' & docs & Hrun & Hspec).
  exists w', docs.
  rewrite !bool_decide_eq_true_2 by eauto. cbn [negb orb].
  rewrite Hsearch, Hrun. split; [done|]. split; [done|].
  pose proof (resolve_all_spec_length (doc_map r) (selected (m :: md) labels) w) as Hlen.
  rewrite Hspec in Hlen. cbn [snd] in Hlen.
  pose proof (selected_length (m :: md) labels). lia.
Qed.

Lemma same_state_refl w : same_state w w.
Proof. done. Qed.

Lemma same_state_trans w1 w2 w3 :
  same_state w1 w2 → same_state w2 w3 → same_state w1 w3.
Proof. intros [? ?] [? ?]. split; congruence. Qed.

Lemma retrieve_document_same b w w0 :
  same_state w w0 →
  (retrieve_document b w).2 = (retrieve_document b w0).2.
Proof.
  intros [_ Hout]. unfold retrieve_document. rewrite Hout.
  by destruct (api_retrieve (outside w0) b).
Qed.

Lemma retrieve_document_fixed b w :
  fixed_environment → same_state (retrieve_document b w).1 w.
Proof.
  intros Hfixed. unfold retrieve_document.
  specialize (Hfixed (outside w) b).
  destruct (api_retrieve (outside w) b) as [e resp]. by split.
Qed.

Lemma read_text_same path w w0 :
  same_state w w0 → (read_text path w).2 = (read_text path w0).2.
Proof. intros [Hfs _]. unfold read_text, open_read. cbn [snd]. by rewrite Hfs. Qed.

Lemma read_text_state path w : same_state (read_text path w).1 w.
Proof. done. Qed.

Lemma exists_same path w w0 : same_state w w0 → exists_ path w = exists_ path w0.
Proof. intros [Hfs _]. unfold exists_. by rewrite Hfs. Qed.

Lemma from_local_same d w w0 :
  same_state w w0 →
  (from_local d w).2 = (from_local d w0).2 ∧ same_state (from_local d w).1 w.
Proof.
  intros Hs. unfold from_local. rewrite (exists_same _ _ _ Hs).
  destruct (exists_ (file_path d) w0); [|done].
  pose proof (read_text_same (file_path d) w w0 Hs) as Hr.
  pose proof (read_text_state (file_path d) w) as Hw.
  destruct (read_text (file_path d) w) as [w1 res].
  destruct (read_text (file_path d) w0) as [w1' res'].
  cbn [fst snd] in *. by subst.
Qed.

Lemma from_remote_same dm d w w0 :
  fixed_environment → same_state w w0 →
  (from_remote dm d w).2 = (from_remote dm d w0).2
  ∧ same_state (from_remote dm d w).1 w.
Proof.
  intros Hfixed Hs. unfold from_remote.
  destruct (blob_id_for dm (file_name d)) as [b|]; [|done].
  pose proof (retrieve_document_same b w w0 Hs) as Hr.
  pose proof (retrieve_document_fixed b w Hfixed) as Hw.
  destruct (retrieve_document b w) as [w1 res].
  destruct (retrieve_document b w0) as [w1' res'].
  cbn [fst snd] in *. by subst.
Qed.

Lemma resolve_spec_same dm d w w0 :
  fixed_environment → same_state w w0 →
  (resolve_spec dm d w).2 = (resolve_spec dm d w0).2
  ∧ same_state (resolve_spec dm d w).1 w.
Proof.
  intros Hfixed Hs. unfold resolve_spec.
  destruct (from_remote_same dm d w w0 Hfixed Hs) as [Hr Hw].
  destruct (from_remote_same dm d w0 w0 Hfixed (same_state_refl w0)) as [_ Hw0].
  destruct (from_remote dm d w) as [w1 o].
  destruct (from_remote dm d w0) as [w1' o'].
  cbn [fst snd] in *. subst o'. destruct o as [x|]; [done|].
  assert (same_state w1 w1') as Hs1.
  { eapply same_state_trans; [exact Hw|].
    eapply same_state_trans; [exact Hs|]. by destruct Hw0. }
  destruct (from_local_same d w1 w1' Hs1) as [Hl Hwl].
  split; [done|]. eapply same_state_trans; eauto.
Qed.

Lemma for_each_resolve_same r md labels : ∀ w w0 acc,
  fixed_environment → same_state w w0 →
  (for_each labels (resolve r md) (w, acc)).1.2
    = (for_each labels (resolve r md) (w0, acc)).1.2
  ∧ (for_each labels (resolve r md) (w, acc)).2
    = (for_each labels (resolve r md) (w0, acc)).2
  ∧ same_state (for_each labels (resolve r md) (w, acc)).1.1 w.
Proof.
  induction labels as [|idx labels IH]; intros w w0 acc Hfixed Hs; [done|].
  cbn [for_each]. unfold bind. rewrite !resolve_step.
  destruct (idx <? Z.of_nat (length md)); [|by apply IH].
  destruct (py_index md idx) as [d|e]; [|done].
  destruct (resolve_spec_same (doc_map r) d w w0 Hfixed Hs) as [Hr Hw].
  destruct (resolve_spec_same (doc_map r) d w0 w0 Hfixed (same_state_refl w0))
    as [_ Hw0].
  destruct (resolve_spec (doc_map r) d w) as [w1 o].
  destruct (resolve_spec (doc_map r) d w0) as [w1' o'].
  cbn [fst snd] in *. subst o'.
  assert (same_state w1 w1') as Hs1.
  { eapply same_state_trans; [exact Hw|].
    eapply same_state_trans; [exact Hs|]. by destruct Hw0. }
  destruct (IH w1 w1' (acc ++ option_list o)%list Hfixed Hs1) as (H1 & H2 & H3).
  split; [done|]. split; [done|]. eapply same_state_trans; eauto.
Qed.

Lemma retrieve_documents_same r (q : string) (k : Z) w w0 :
  fixed_environment → same_state w w0 →
  (retrieve_documents r q k w).2 = (retrieve_documents r q k w0).2
  ∧ same_state (retrieve_documents r q k w).1 w.
Proof.
  intros Hfixed Hs. unfold retrieve_documents.
  destruct (not_initialized r); [done|].
  destruct (index r) as [ix|]; [|done].
  destruct (vectorizer r) as [v|]; [|done].
  destruct (document_metadata r) as [md|]; [|done].
  destruct (faiss_search ix (tfidf_transform v q) k) as [labels|e]; [|done].
  destruct (for_each_resolve_same r md labels w w0 [] Hfixed Hs) as (H1 & H2 & H3).
  destruct (for_each labels (resolve r md) (w, [])) as [[w1 docs] res].
  destruct (for_each labels (resolve r md) (w0, [])) as [[w1' docs'] res'].
  cbn [fst snd] in *. by subst.
Qed.

(** C8: with the same retriever and a fixed environment, a second call of
    [retrieve_documents] with the same query and the same [k] returns what
    the first call returned (the same list, or the same exception). *)
Theorem retrieve_documents_deterministic r (q : string) (k : Z) w
    (Hfixed : fixed_environment) :
  (retrieve_documents r q k (retrieve_documents r q k w).1).2
  = (retrieve_documents r q k w).2.
Proof.
  destruct (retrieve_documents_same r q k w w Hfixed (same_state_refl w))
    as [_ Hw].
  by destruct (retrieve_documents_same r q k _ w Hfixed Hw).
Qed.

Lemma path_join_inj d a b : path_join d a = path_join d b → a = b.
Proof.
  unfold path_join. intros Heq.
  apply (inj (String.app d)) in Heq. by apply (inj (String.app "/")) in Heq.
Qed.

Lemma retrieve_document_effects b w w1 res :
  retrieve_document b w = (w1, res) →
  fs w1 = fs w ∧ trace w1 = (trace w ++ [EvRetrieve b res])%list.
Proof.
  unfold retrieve_document.
  destruct (api_retrieve (outside w) b) as [e resp]. by intros [= <- <-].
Qed.

Lemma store_document_effects c m w w1 res :
  store_document c m w = (w1, res) →
  fs w1 = fs w ∧ ∃ data, trace w1 = (trace w ++ [EvStore data m res])%list.
Proof.
  unfold store_document.
  destruct (api_store (outside w) _ m) as [e resp]. intros [= <- <-]. eauto.
Qed.

Ltac note_retrievals :=
  repeat match goal with
  | Hr : retrieve_document ?b ?w = (?w1, ?res) |- _ =>
      apply retrieve_document_effects in Hr;
      let Hfs := fresh "Hfs" in
      let Htr := fresh "Htr" in
      destruct Hr as [Hfs Htr];
      destruct w1; cbn [fs trace outside fst snd] in *; subst
  end.

Lemma load_from_walrus_effects w r w' r' res :
  load_from_walrus (w, r) = ((w', r'), res) →
  ∃ evs, trace w' = (trace w ++ evs)%list
    ∧ Forall (fun ev => is_store ev = false) evs
    ∧ (∀ p, p ≠ path_join (vector_store_dir r) "temp_faiss_index.bin" →
         fs w' !! p = fs w !! p)
    ∧ vector_store_dir r' = vector_store_dir r
    ∧ vector_store_blob_ids r' = vector_store_blob_ids r
    ∧ doc_map r' = doc_map r
    ∧ (res = Ok tt → loaded_from_walrus r r' evs).
Proof.
  unfold load_from_walrus, bind, lift, io, io_, update, gets, ret, dict_get,
    faiss_read_index, open_read, write_bytes, log.
  cbn [fst snd fs trace outside].
  intros Hrun.
  repeat case_match; simplify_eq; note_retrievals;
    cbn [fst snd fs trace outside] in *.
  all: rewrite <- ?app_assoc;
    first [ exists []; split; [by rewrite app_nil_r|]
          | eexists; split; [reflexivity|] ].
  all: split; [repeat constructor|].
  all: split; [intros p Hp; by rewrite ?lookup_insert_ne|].
  all: do 3 (split; [reflexivity|]).
  all: intros Hok; try discriminate.
  simplify_map_eq.
  unfold loaded_from_walrus. do 9 eexists. repeat split; eauto.
Qed.

Lemma load_local_effects {A} path (loads : bytes → exc A) set w r w' r' res :
  load_local path loads set (w, r) = ((w', r'), res) →
  w' = w
  ∧ match res with
    | Ok _ => ∃ o, r' = set o r ∧ local_artifact w path loads o
    | Raise _ => r' = r
    end.
Proof.
  unfold load_local, bind, lift, update, gets, ret, open_read, exists_,
    local_artifact.
  cbn [fst snd]. intros Hrun.
  repeat case_match; simplify_eq; (split; [done|]); eauto 10.
Qed.

Lemma load_from_local_effects w r w' r' res :
  load_from_local (w, r) = ((w', r'), res) →
  w' = w
  ∧ vector_store_dir r' = vector_store_dir r
  ∧ vector_store_blob_ids r' = vector_store_blob_ids r
  ∧ doc_map r' = doc_map r
  ∧ (res = Ok tt → loaded_from_local_disk w r').
Proof.
  unfold load_from_local, bind, gets. cbn [fst snd]. intros Hrun.
  destruct (load_local _ read_index set_index (w, r))
    as [[w1 r1] res1] eqn:E1.
  apply load_local_effects in E1 as [-> E1].
  destruct res1 as [[]|e]; [|by simplify_eq].
  destruct E1 as (o1 & -> & Ho1).
  destruct (load_local _ pickle_loads_vectorizer set_vectorizer _)
    as [[w2 r2] res2] eqn:E2.
  apply load_local_effects in E2 as [-> E2].
  destruct res2 as [[]|e]; [|by simplify_eq].
  destruct E2 as (o2 & -> & Ho2).
  apply load_local_effects in Hrun as [-> E3].
  destruct res as [[]|e]; [|by simplify_eq].
  destruct E3 as (o3 & -> & Ho3).
  do 4 (split; [done|]). intros _. by split.
Qed.

Lemma loaded_from_local_disk_clear w r :
  loaded_from_local_disk w (clear_artifacts r).
Proof. repeat split; by left. Qed.

Lemma local_artifact_frame {A} w w1 path (loads : bytes → exc A) o :
  fs w1 !! path = fs w !! path →
  local_artifact w1 path loads o → local_artifact w path loads o.
Proof. unfold local_artifact. intros ->. done. Qed.

Lemma loaded_from_local_disk_frame w w1 r :
  (∀ p, p ≠ path_join (vector_store_dir r) "temp_faiss_index.bin" →
     fs w1 !! p = fs w !! p) →
  loaded_from_local_disk w1 r → loaded_from_local_disk w r.
Proof.
  intros Hframe (Hi & Hv & Hm).
  repeat split; (eapply local_artifact_frame; [|eassumption]);
    apply Hframe; intros Heq; by apply path_join_inj in Heq.
Qed.

Lemma has_all_artifacts_true ids :
  has_all_artifacts ids = true →
  is_Some (ids !! "index") ∧ is_Some (ids !! "vectorizer")
  ∧ is_Some (ids !! "metadata").
Proof.
  unfold has_all_artifacts, artifact_names. cbn [forallb].
  rewrite !andb_true_iff, !bool_decide_eq_true. tauto.
Qed.

(** ** Loading the artifacts *)

Lemma load_artifacts_effects r w :
  ∃ w' r' evs,
    load_artifacts (w, r) = ((w', r'), Ok tt)
    ∧ trace w' = (trace w ++ evs)%list
    ∧ Forall (fun ev => is_store ev = false) evs
    ∧ (∀ p, p ≠ path_join (vector_store_dir r) "temp_faiss_index.bin" →
         fs w' !! p = fs w !! p)
    ∧ vector_store_dir r' = vector_store_dir r
    ∧ vector_store_blob_ids r' = vector_store_blob_ids r
    ∧ doc_map r' = doc_map r
    ∧ (has_all_artifacts (vector_store_blob_ids r) = true
       ∨ Forall (fun ev => is_retrieval ev = false) evs)
    ∧ (loaded_from_walrus r r' evs ∨ loaded_from_local_disk w r').
Proof.
  unfold load_artifacts, try_except, bind, gets, ret. cbn [fst snd].
  destruct (has_all_artifacts (vector_store_blob_ids r)) eqn:Hall.
  - destruct (load_from_walrus (w, r)) as [[w1 r1] res1] eqn:E1.
    apply load_from_walrus_effects in E1
      as (evs & Htr & Hns & Hfs & Hdir & Hids & Hdm & Hremote).
    destruct res1 as [[]|e].
    + exists w1, r1, evs. repeat split; eauto.
    + destruct (load_from_local (w1, r1)) as [[w2 r2] res2] eqn:E2.
      apply load_from_local_effects in E2
        as (-> & Hdir2 & Hids2 & Hdm2 & Hlocal).
      destruct res2 as [[]|e2].
      * exists w1, r2, evs.
        split; [done|]. split; [done|]. split; [done|]. split; [done|].
        split; [congruence|]. split; [congruence|]. split; [congruence|].
        split; [by left|]. right.
        eapply loaded_from_local_disk_frame; [|by apply Hlocal].
        by rewrite Hdir2, Hdir.
      * exists w1, (clear_artifacts r2), evs.
        split; [done|]. split; [done|]. split; [done|]. split; [done|].
        split; [cbn; congruence|]. split; [cbn; congruence|].
        split; [cbn; congruence|].
        split; [by left|]. right. apply loaded_from_local_disk_clear.
  - destruct (load_from_local (w, r)) as [[w2 r2] res2] eqn:E2.
    apply load_from_local_effects in E2
      as (-> & Hdir2 & Hids2 & Hdm2 & Hlocal).
    destruct res2 as [[]|e2].
    + exists w, r2, []. rewrite app_nil_r. repeat split; eauto.
    + exists w, (clear_artifacts r2), []. rewrite app_nil_r.
      repeat split; eauto. right. apply loaded_from_local_disk_clear.
Qed.

(** C3: [load_artifacts] raises nothing; it retrieves from the blob store
    only when the side-table has ids for the index, the vectorizer and the
    metadata; and afterwards either all three artifacts were decoded from
    retrieved blobs, or each of the three is absent or was decoded from its
    local file. *)
Theorem load_artifacts_single_tier r w :
  ∃ w' r' evs,
    load_artifacts (w, r) = ((w', r'), Ok tt)
    ∧ trace w' = (trace w ++ evs)%list
    ∧ ((is_Some (vector_store_blob_ids r !! "index")
        ∧ is_Some (vector_store_blob_ids r !! "vectorizer")
        ∧ is_Some (vector_store_blob_ids r !! "metadata"))
       ∨ Forall (fun ev => is_retrieval ev = false) evs)
    ∧ (loaded_from_walrus r r' evs ∨ loaded_from_local_disk w r').
Proof.
  destruct (load_artifacts_effects r w)
    as (w' & r' & evs & Hrun & Htr & _ & _ & _ & _ & _ & Hattempt & Htier).
  exists w', r', evs. split; [done|]. split; [done|]. split; [|done].
  destruct Hattempt as [Hall|Hnone]; [left|by right].
  by apply has_all_artifacts_true.
Qed.

(** ** Ingestion *)

Lemma describes_mono dm0 dir tr tr' c m :
  tr ⊆ tr' → describes dm0 dir tr c m → describes dm0 dir tr' c m.
Proof.
  intros Hsub [(Hs & Hp & dm & b & data & ? & ? & ? & Hin & ?)
              |(Hs & Hb & root & Hp & Hin)].
  - left. split; [done|]. split; [done|]. exists dm, b, data. eauto 10.
  - right. split; [done|]. split; [done|]. exists root. eauto.
Qed.

Lemma Forall2_describes_mono dm0 dir tr tr' cs ms :
  tr ⊆ tr' →
  Forall2 (describes dm0 dir tr) cs ms → Forall2 (describes dm0 dir tr') cs ms.
Proof.
  intros Hsub HF. eapply Forall2_impl; [exact HF|].
  intros c m. by apply describes_mono.
Qed.

Lemma for_each_preserves {S A} (P : S → Prop) (body : A → action S unit) l :
  (∀ x s, P s → P (body x s).1 ∧ (body x s).2 = Ok tt) →
  ∀ s, P s → P (for_each l body s).1 ∧ (for_each l body s).2 = Ok tt.
Proof.
  intros Hbody. induction l as [|x l IH]; intros s Hs; [done|].
  cbn [for_each]. unfold bind.
  destruct (Hbody x s Hs) as [HP Hres].
  destruct (body x s) as [s1 res]. cbn [fst snd] in *. subst res.
  by apply IH.
Qed.

Lemma load_from_walrus_storage_lockstep dm0 g0 tr0 f s :
  i_doc_map s.2.1 = dm0 →
  loaded_in_lockstep dm0 g0 tr0 s →
  i_doc_map (load_from_walrus_storage f s).1.2.1 = dm0
  ∧ loaded_in_lockstep dm0 g0 tr0 (load_from_walrus_storage f s).1
  ∧ (load_from_walrus_storage f s).2 = Ok tt.
Proof.
  destruct s as [w [g p]]. cbn [fst snd].
  intros Hdm (Hdir & Hvsd & Huw & Hvec & Htr & Hall).
  unfold load_from_walrus_storage, self_doc_map, on_self, try_except, bind,
    lift, io, update, gets, ret.
  cbn [fst snd].
  repeat case_match; simplify_eq; cbn [fst snd] in *; simplify_eq.
  all: try match goal with
       | Hr : retrieve_document ?b ?w = (?w1, ?res) |- _ =>
           apply retrieve_document_effects in Hr as [Hfs1 Htr1]
       end.
  all: split; [done|]; split; [|done].
  all: unfold loaded_in_lockstep; cbn [fst snd documents i_document_metadata
         append_document append_metadata data_dir i_vector_store_dir use_walrus i_vectorizer].
  all: do 4 (split; [done|]).
  all: try (split; [done|done]).
  all: try rewrite Htr1.
  all: split; [by repeat apply prefix_app_r|].
  - apply Forall2_app.
    + eapply Forall2_describes_mono; [|exact Hall]. set_solver.
    + constructor; [|constructor]. left. cbn. rewrite Hdir.
      split; [done|]. split; [done|].
      match goal with Ht : truthy ?o = true |- _ => destruct o as [b|] eqn:Hb; [|done] end.
      eexists _, b, _. repeat split; eauto. set_solver.
  - eapply Forall2_describes_mono; [|exact Hall]. set_solver.
  - eapply Forall2_describes_mono; [|exact Hall]. set_solver.
Qed.

Lemma read_text_effects path w w1 res :
  read_text path w = (w1, res) →
  fs w1 = fs w ∧ trace w1 = (trace w ++ [EvRead path res])%list.
Proof. unfold read_text. by intros [= <- <-]. Qed.

Lemma add_document_effects dm f b m w w1 dm1 :
  add_document dm f b m w = (w1, dm1) →
  ∃ t, dm1 = MkDocumentMap (map_file dm)
               (<[f := Entry b t (default [] m)]> (document_map dm))
    ∧ fs w1 = <[map_file dm := json_dump_map (document_map dm1)]> (fs w)
    ∧ trace w1
      = (trace w ++ [EvWrite (map_file dm) (json_dump_map (document_map dm1))])%list.
Proof.
  unfold add_document, now, save_map, write_bytes, log.
  destruct (clock (outside w)) as [e t]. intros [= <- <-]. by exists t.
Qed.

Ltac note_effects :=
  repeat match goal with
  | Hr : retrieve_document ?b ?w = (?w1, ?res) |- _ =>
      apply retrieve_document_effects in Hr as [? ?]
  | Hr : read_text ?p ?w = (?w1, ?res) |- _ =>
      apply read_text_effects in Hr as [? ?]
  | Hr : store_document ?c ?m ?w = (?w1, ?res) |- _ =>
      apply store_document_effects in Hr as [? [? ?]]
  | Hr : add_document ?dm ?f ?b ?m ?w = (?w1, ?dm1) |- _ =>
      apply add_document_effects in Hr as (? & ? & ? & ?)
  end.

Lemma load_from_filesystem_lockstep dm0 g0 tr0 root file s :
  loaded_in_lockstep dm0 g0 tr0 s →
  loaded_in_lockstep dm0 g0 tr0 (load_from_filesystem root file s).1
  ∧ (load_from_filesystem root file s).2 = Ok tt.
Proof.
  destruct s as [w [g p]].
  intros (Hdir & Hvsd & Huw & Hvec & Htr & Hall). cbn [fst snd] in *.
  unfold load_from_filesystem, self_doc_map, on_self, try_except, bind,
    lift, io, update, gets, ret.
  cbn [fst snd].
  repeat case_match; simplify_eq; cbn [fst snd] in *; simplify_eq;
    note_effects.
  all: split; [|done].
  all: unfold loaded_in_lockstep; cbn [fst snd documents i_document_metadata
         append_document append_metadata set_i_doc_map data_dir
         i_vector_store_dir use_walrus i_vectorizer].
  all: do 4 (split; [done|]).
  all: try (split; [done|done]).
  all: repeat match goal with Ht : trace _ = _ |- _ => rewrite Ht; clear Ht end.
  all: split; [by repeat apply prefix_app_r|].
  all: try (eapply Forall2_describes_mono; [|exact Hall]; set_solver).
  all: apply Forall2_app;
    [eapply Forall2_describes_mono; [|exact Hall]; set_solver|].
  all: constructor; [|constructor]; right; cbn;
    (split; [done|]); (split; [done|]); eexists; split; [done|]; set_solver.
Qed.

Lemma load_documents_lockstep g0 w w' g' res :
  load_documents (w, g0) = ((w', g'), res) →
  Forall2 (describes (i_doc_map g0) (data_dir g0) (trace w))
    (documents g0) (i_document_metadata g0) →
  data_dir g' = data_dir g0
  ∧ i_vector_store_dir g' = i_vector_store_dir g0
  ∧ use_walrus g' = use_walrus g0
  ∧ i_vectorizer g' = i_vectorizer g0
  ∧ trace w `prefix_of` trace w'
  ∧ Forall2 (describes (i_doc_map g0) (data_dir g0) (trace w'))
      (documents g') (i_document_metadata g')
  ∧ (res = Ok tt ∨ (use_walrus g0 = true ∧ i_doc_map g0 = None)).
Proof.
  intros Hrun Hall.
  assert (loaded_in_lockstep (i_doc_map g0) g0 (trace w) (w, (g0, ∅))) as Hinv.
  { by repeat split. }
  unfold load_documents in Hrun. cbn [fst snd] in Hrun.
  unfold load_documents_loops, bind, gets in Hrun. cbn [fst snd] in Hrun.
  set (walrus_loop := if use_walrus g0 then _ else _) in Hrun.
  assert (∃ s1 res1, walrus_loop (w, (g0, ∅)) = (s1, res1)
            ∧ loaded_in_lockstep (i_doc_map g0) g0 (trace w) s1
            ∧ (res1 = Ok tt ∨ (s1 = (w, (g0, ∅)) ∧ res1 ≠ Ok tt
                 ∧ use_walrus g0 = true ∧ i_doc_map g0 = None)))
    as (s1 & res1 & Hloop1 & Hinv1 & Hres1).
  { unfold walrus_loop. destruct (use_walrus g0).
    - unfold self_doc_map, bind. cbn [fst snd].
      destruct (i_doc_map g0) as [dm|] eqn:Hdm.
      + set (P := fun s : world * (DocumentIngester * gset string) =>
            i_doc_map s.2.1 = Some dm
            ∧ loaded_in_lockstep (Some dm) g0 (trace w) s).
        destruct (for_each_preserves P load_from_walrus_storage
                    (list_documents dm)) with (s := (w, (g0, ∅ : gset string)))
          as [[_ HP] Hres].
        * intros x s [Hd Hl].
          destruct (load_from_walrus_storage_lockstep (Some dm) g0 (trace w)
                      x s Hd Hl) as (? & ? & ?).
          split; [split|]; assumption.
        * by split.
        * eexists _, _. split; [apply surjective_pairing|]. split; [done|].
          by left.
      + eexists _, _. split; [done|]. split; [done|]. right. by repeat split.
    - eexists _, _. split; [done|]. split; [done|]. by left. }
  rewrite Hloop1 in Hrun.
  destruct Hres1 as [-> | (-> & Hne & Huw & Hdm)].
  - set (P := loaded_in_lockstep (i_doc_map g0) g0 (trace w)).
    destruct (for_each_preserves P
                (fun d : string * list string =>
                   for_each d.2 (load_from_filesystem d.1))
                (os_walk (fs s1.1) (data_dir s1.2.1))) with (s := s1)
      as [HP Hres]; [|done|].
    { intros d s Hs. apply for_each_preserves; [|done].
      intros x s' Hs'. by apply load_from_filesystem_lockstep. }
    destruct (for_each _ _ s1) as [[w2 [g2 p2]] res2].
    cbn [fst snd] in *. simplify_eq.
    destruct HP as (? & ? & ? & ? & ? & ?). cbn [fst snd] in *.
    repeat split; eauto.
  - destruct res1 as [[]|e]; [done|]. simplify_eq.
    destruct Hinv as (? & ? & ? & ? & ? & ?). cbn [fst snd] in *.
    repeat split; eauto.
Qed.

Lemma list_ascii_of_string_app a b :
  String.list_ascii_of_string (a +:+ b)
  = (String.list_ascii_of_string a ++ String.list_ascii_of_string b)%list.
Proof. induction a as [|c a IH]; [done|]. simpl. f_equal. exact IH. Qed.

Lemma path_join_not_ids_file d a : path_join d a ≠ vector_store_blob_ids_file.
Proof.
  intros Heq. apply (f_equal String.list_ascii_of_string) in Heq.
  unfold path_join in Heq. rewrite !list_ascii_of_string_app in Heq.
  assert (Ascii.ascii_of_nat 47 ∈ String.list_ascii_of_string vector_store_blob_ids_file)
    as Hin.
  { rewrite <- Heq. set_solver. }
  apply list_elem_of_In in Hin. vm_compute in Hin.
  repeat (destruct Hin as [Hin|Hin]; [discriminate|]). done.
Qed.

Lemma save_artifacts_to_walrus_effects w r w' r' res :
  save_artifacts_to_walrus (w, r) = ((w', r'), res) →
  ∃ success evs,
    res = Ok success
    ∧ trace w' = (trace w ++ evs)%list
    ∧ (∀ p, p ≠ vector_store_blob_ids_file → fs w' !! p = fs w !! p)
    ∧ (∀ d m e, EvStore d m (Raise e) ∈ evs → success ≠ Some true).
Proof.
  unfold save_artifacts_to_walrus, _save_vector_store_blob_ids, write_bytes,
    log, try_except, bind, io, update, ret.
  cbn [fst snd fs trace outside]. intros Hrun.
  repeat case_match; simplify_eq; cbn [fst snd fs trace outside] in *;
    simplify_eq; note_effects.
  all: repeat match goal with
         | Ht : trace _ = _ |- _ => rewrite Ht; clear Ht
         | Hf : fs _ = _ |- _ => rewrite Hf; clear Hf
         end.
  all: rewrite <- ?app_assoc;
    first [ exists None, []; split; [done|]; split; [by rewrite app_nil_r|]
          | eexists _, _; split; [reflexivity|]; split; [reflexivity|] ].
  all: split; [intros p Hp; by rewrite ?lookup_insert_ne|].
  all: intros d m e Hin; try done.
  all: cbn in Hin.
  all: repeat (apply elem_of_cons in Hin as [Hin|Hin]; [discriminate|]).
  all: by apply elem_of_nil in Hin.
Qed.

Lemma DocumentRetriever_init_effects dir w w' res :
  DocumentRetriever_init dir w = (w', res) →
  ∃ evs,
    trace w' = (trace w ++ evs)%list
    ∧ Forall (fun ev => is_store ev = false) evs
    ∧ (∀ p, p ≠ path_join dir "temp_faiss_index.bin" → fs w' !! p = fs w !! p)
    ∧ (∀ r, res = Ok r → vector_store_dir r = dir).
Proof.
  unfold DocumentRetriever_init. intros Hrun.
  destruct (DocumentMap_init default_map_file w) as [dm|e].
  - set (r0 := MkDocumentRetriever dir None None None dm _) in Hrun.
    destruct (load_artifacts_effects r0 w)
      as (w1 & r1 & evs & Hload & Htr & Hns & Hfs & Hdir & _).
    rewrite Hload in Hrun. simplify_eq.
    exists evs. repeat split; eauto. by intros r [= <-].
  - simplify_eq. exists []. rewrite app_nil_r. repeat split; eauto. done.
Qed.

Lemma path_join_ne d a b : a ≠ b → path_join d a ≠ path_join d b.
Proof. intros Hne Heq. by apply path_join_inj in Heq. Qed.

Lemma create_embeddings_effects w g w' g' res :
  create_embeddings (w, g) = ((w', g'), res) →
  documents g' = documents g
  ∧ i_document_metadata g' = i_document_metadata g
  ∧ match documents g with
    | [] => w' = w ∧ res = Ok tt
    | _ :: _ =>
        match build_index (documents g) with
        | Raise e => w' = w ∧ res = Raise e
        | Ok (v, ix) =>
            let dir := i_vector_store_dir g in
            res = Ok tt
            ∧ i_vectorizer g' = Some v
            ∧ ∃ rest,
                trace w'
                = (trace w
                   ++ [EvWrite (path_join dir "faiss_index.bin")
                         (serialize_index ix);
                       EvWrite (path_join dir "vectorizer.pkl")
                         (pickle_dumps_vectorizer v);
                       EvWrite (path_join dir "metadata.pkl")
                         (pickle_dumps_metadata (i_document_metadata g))]
                   ++ rest)%list
                ∧ fs w' !! path_join dir "faiss_index.bin"
                  = Some (serialize_index ix)
                ∧ fs w' !! path_join dir "vectorizer.pkl"
                  = Some (pickle_dumps_vectorizer v)
                ∧ fs w' !! path_join dir "metadata.pkl"
                  = Some (pickle_dumps_metadata (i_document_metadata g))
                ∧ (use_walrus g = false → rest = [])
                ∧ (∀ d m e, EvStore d m (Raise e) ∈ rest →
                     EvPrint failed_message ∈ rest)
        end
    end.
Proof.
  unfold create_embeddings, bind, gets, lift, update, io_, ret.
  cbn [fst snd]. intros Hrun.
  destruct (documents g) as [|c cs] eqn:Hdocs; [by simplify_eq|].
  destruct (build_index (c :: cs)) as [[v ix]|e]; [|by simplify_eq].
  cbn [fst snd documents i_document_metadata set_i_vectorizer
       i_vector_store_dir use_walrus] in Hrun.
  set (dir := i_vector_store_dir g) in *.
  set (w3 := write_bytes (path_join dir "metadata.pkl") _ _) in Hrun.
  assert (fs w3 !! path_join dir "faiss_index.bin" = Some (serialize_index ix)
          ∧ fs w3 !! path_join dir "vectorizer.pkl"
            = Some (pickle_dumps_vectorizer v)
          ∧ fs w3 !! path_join dir "metadata.pkl"
            = Some (pickle_dumps_metadata (i_document_metadata g))) as Hw3.
  { unfold w3, write_bytes, log. cbn [fs].
    rewrite !lookup_insert_eq.
    rewrite !(lookup_insert_ne _ (path_join dir "metadata.pkl"))
      by (by apply path_join_ne).
    rewrite !lookup_insert_eq.
    rewrite !(lookup_insert_ne _ (path_join dir "vectorizer.pkl"))
      by (by apply path_join_ne).
    by rewrite !lookup_insert_eq. }
  assert (trace w3
          = (trace w
             ++ [EvWrite (path_join dir "faiss_index.bin") (serialize_index ix);
                 EvWrite (path_join dir "vectorizer.pkl")
                   (pickle_dumps_vectorizer v);
                 EvWrite (path_join dir "metadata.pkl")
                   (pickle_dumps_metadata (i_document_metadata g))])%list)
    as Htr3.
  { unfold w3, write_bytes, log. cbn [trace]. by rewrite <- !app_assoc. }
  clearbody w3.
  destruct (use_walrus g).
  - unfold try_except, bind, io, io_ in Hrun. cbn [fst snd] in Hrun.
    destruct (DocumentRetriever_init dir w3) as [w4 res4] eqn:Einit.
    apply DocumentRetriever_init_effects in Einit
      as (evs4 & Htr4 & Hns4 & Hfs4 & Hdir4).
    assert (∀ a, a ≠ "temp_faiss_index.bin" →
              fs w4 !! path_join dir a = fs w3 !! path_join dir a) as Hframe4.
    { intros a Ha. by apply Hfs4, path_join_ne. }
    destruct res4 as [r|e]; cbn [fst snd] in Hrun.
    + destruct (save_artifacts_to_walrus _) as [[w5 r5] res5] eqn:Esave.
      apply save_artifacts_to_walrus_effects in Esave
        as (success & evs5 & -> & Htr5 & Hfs5 & Hfail).
      assert (∃ msg, w' = log (EvPrint msg) w5 ∧ g' = set_i_vectorizer (Some v) g
                ∧ res = Ok tt
                ∧ (success ≠ Some true → msg = failed_message))
        as (msg & -> & -> & -> & Hmsg).
      { destruct success as [[]|]; simplify_eq; cbn [fst snd];
          [exists saved_message | exists failed_message..];
          repeat split; done. }
      split; [done|]. split; [done|]. split; [done|]. split; [done|].
      exists (evs4 ++ evs5 ++ [EvPrint msg])%list. cbn [log trace fs].
      rewrite Htr5, Htr4, Htr3, <- !app_assoc. split; [done|].
      rewrite !Hfs5 by apply path_join_not_ids_file.
      rewrite !Hframe4 by done.
      destruct Hw3 as (-> & -> & ->). do 3 (split; [done|]).
      split; [done|]. intros d m e Hin.
      rewrite !elem_of_app in Hin. rewrite !elem_of_app.
      destruct Hin as [Hin|[Hin|Hin]].
      * rewrite Forall_forall in Hns4. by apply Hns4 in Hin.
      * apply Hfail in Hin. rewrite (Hmsg Hin). right. right.
        apply list_elem_of_singleton. done.
      * apply list_elem_of_singleton in Hin. discriminate.
    + simplify_eq. split; [done|]. split; [done|]. split; [done|].
      split; [done|]. eexists (evs4 ++ [EvPrint _])%list. cbn [log trace fs].
      rewrite Htr4, Htr3, <- !app_assoc. split; [done|].
      rewrite !Hframe4 by done.
      destruct Hw3 as (-> & -> & ->). do 3 (split; [done|]).
      split; [done|]. intros d m e0 Hin.
      rewrite !elem_of_app in Hin. destruct Hin as [Hin|Hin].
      * rewrite Forall_forall in Hns4. by apply Hns4 in Hin.
      * apply list_elem_of_singleton in Hin. discriminate.
  - simplify_eq.
    split; [done|]. split; [done|]. split; [done|]. split; [done|].
    exists []. rewrite app_nil_r. destruct Hw3 as (-> & -> & ->).
    repeat split; eauto. intros d m e Hin. by apply elem_of_nil in Hin.
Qed.

(** C5: when there are documents and the index can be built,
    [create_embeddings] first writes the index, the vectorizer and the
    metadata to the local disk; whatever the blob store then answers, no
    exception reaches the caller, the three local files still hold the new
    artifacts, and a failed store of an artifact is followed by the printed
    failure message. *)
Theorem create_embeddings_local_first w g c cs v ix
    (Hdocs : documents g = c :: cs)
    (Hbuild : build_index (documents g) = Ok (v, ix)) :
  ∃ w' g' rest,
    create_embeddings (w, g) = ((w', g'), Ok tt)
    ∧ trace w'
      = (trace w
         ++ [EvWrite (path_join (i_vector_store_dir g) "faiss_index.bin")
               (serialize_index ix);
             EvWrite (path_join (i_vector_store_dir g) "vectorizer.pkl")
               (pickle_dumps_vectorizer v);
             EvWrite (path_join (i_vector_store_dir g) "metadata.pkl")
               (pickle_dumps_metadata (i_document_metadata g))]
         ++ rest)%list
    ∧ fs w' !! path_join (i_vector_store_dir g) "faiss_index.bin"
      = Some (serialize_index ix)
    ∧ fs w' !! path_join (i_vector_store_dir g) "vectorizer.pkl"
      = Some (pickle_dumps_vectorizer v)
    ∧ fs w' !! path_join (i_vector_store_dir g) "metadata.pkl"
      = Some (pickle_dumps_metadata (i_document_metadata g))
    ∧ (∀ d m e, EvStore d m (Raise e) ∈ rest → EvPrint failed_message ∈ rest).
Proof.
  destruct (create_embeddings (w, g)) as [[w' g'] res] eqn:Hrun.
  apply create_embeddings_effects in Hrun as (_ & _ & Hrun).
  rewrite Hbuild, Hdocs in Hrun.
  destruct Hrun as (-> & _ & rest & Htr & Hi & Hv & Hm & _ & Hwarn).
  exists w', g', rest. by repeat split.
Qed.

Lemma DocumentIngester_init_fresh dir vsd uw w g :
  DocumentIngester_init dir vsd uw w = Ok g →
  documents g = [] ∧ i_document_metadata g = [] ∧ i_vector_store_dir g = vsd
  ∧ use_walrus g = uw ∧ (uw = true → is_Some (i_doc_map g)).
Proof.
  unfold DocumentIngester_init. intros Hinit.
  repeat case_match; simplify_eq; cbn; repeat split; eauto; done.
Qed.

(** C1: after [process_documents] on a fresh ingester, [documents] and
    [document_metadata] have the same length and each record describes the
    text at its position; when an index is built it has one vector for each
    record, and the vector at a position is the embedding of the text that
    the record at that position describes. *)
Theorem ingestion_alignment dir vsd uw w g w' g'
    (Hinit : DocumentIngester_init dir vsd uw w = Ok g)
    (Hrun : process_documents (w, g) = ((w', g'), Ok tt)) :
  length (i_document_metadata g') = length (documents g')
  ∧ Forall2 (describes (i_doc_map g) (data_dir g) (trace w'))
      (documents g') (i_document_metadata g')
  ∧ ((documents g' = [] ∧ i_document_metadata g' = [])
     ∨ ∃ v ix,
         build_index (documents g') = Ok (v, ix)
         ∧ EvWrite (path_join vsd "faiss_index.bin") (serialize_index ix)
           ∈ trace w'
         ∧ EvWrite (path_join vsd "metadata.pkl")
             (pickle_dumps_metadata (i_document_metadata g')) ∈ trace w'
         ∧ length ix = length (i_document_metadata g')
         ∧ Forall2 (fun x m => ∃ c, x = tfidf_transform v c
                      ∧ describes (i_doc_map g) (data_dir g) (trace w') c m)
             ix (i_document_metadata g')).
Proof.
  apply DocumentIngester_init_fresh in Hinit as (Hd0 & Hm0 & Hvsd & _ & _).
  unfold process_documents, bind in Hrun.
  destruct (load_documents (w, g)) as [[w1 g1] res1] eqn:Hload.
  apply load_documents_lockstep in Hload
    as (_ & Hvsd1 & _ & _ & _ & Hall & _); [|by rewrite Hd0, Hm0].
  destruct res1 as [[]|e]; [|by simplify_eq].
  apply create_embeddings_effects in Hrun as (Hdocs & Hmds & Hrun).
  rewrite Hdocs, Hmds.
  assert (trace w1 ⊆ trace w') as Hsub.
  { destruct (documents g1) as [|c cs]; [by destruct Hrun as [-> _]|].
    destruct (build_index (c :: cs)) as [[v ix]|e];
      [|by destruct Hrun as [-> _]].
    destruct Hrun as (_ & _ & rest & -> & _). set_solver. }
  pose proof (Forall2_describes_mono _ _ _ _ _ _ Hsub Hall) as Hall'.
  split; [symmetry; by eapply Forall2_length|]. split; [done|].
  destruct (documents g1) as [|c cs] eqn:Hg1.
  { left. split; [done|]. by apply Forall2_nil_inv_l in Hall. }
  right. destruct (build_index (c :: cs)) as [[v ix]|e] eqn:Hbuild;
    [|by destruct Hrun as [_ ?]].
  destruct Hrun as (_ & _ & rest & Htr & _).
  exists v, ix. split; [done|]. rewrite Htr, <- Hvsd, <- Hvsd1.
  split; [set_solver|]. split; [set_solver|].
  assert (ix = map (tfidf_transform v) (c :: cs)) as ->.
  { unfold build_index, fit_transform in Hbuild.
    destruct (tfidf_fit (c :: cs)) as [v'|e]; [|done].
    by injection Hbuild as -> <-. }
  split.
  { rewrite length_map. by eapply Forall2_length. }
  rewrite <- Htr. apply Forall2_fmap_l.
  eapply Forall2_impl; [exact Hall'|]. intros c' m Hd. by exists c'.
Qed.

(** ** The append handler *)

Lemma create_embeddings_trace w g w' g' res :
  create_embeddings (w, g) = ((w', g'), res) → trace w `prefix_of` trace w'.
Proof.
  intros Hrun. apply create_embeddings_effects in Hrun as (_ & _ & Hrun).
  destruct (documents g) as [|c cs]; [by destruct Hrun as [-> _]|].
  destruct (build_index (c :: cs)) as [[v ix]|e];
    [|by destruct Hrun as [-> _]].
  destruct Hrun as (_ & _ & rest & -> & _). by apply prefix_app_r.
Qed.

Lemma os_system_ingest_trace uw w :
  ∃ rest, trace (os_system_ingest uw w) = (trace w ++ EvSystem uw :: rest)%list.
Proof.
  unfold os_system_ingest.
  destruct (DocumentIngester_init None "vector_store" uw _) as [g|e] eqn:Hinit;
    [|exists []; done].
  apply DocumentIngester_init_fresh in Hinit as (Hd0 & Hm0 & _).
  unfold process_documents, bind.
  destruct (load_documents _) as [[w1 g1] res1] eqn:Hload.
  apply load_documents_lockstep in Hload
    as (_ & _ & _ & _ & [k1 Hpre1] & _); [|by rewrite Hd0, Hm0].
  destruct res1 as [[]|e].
  - destruct (create_embeddings (w1, g1)) as [[w2 g2] res2] eqn:Hce.
    apply create_embeddings_trace in Hce as [k2 Hpre2]. cbn [fst snd].
    exists (k1 ++ k2)%list. rewrite Hpre2, Hpre1. cbn [log trace].
    by rewrite <- !app_assoc.
  - cbn [fst snd]. exists k1. rewrite Hpre1. cbn [log trace].
    by rewrite <- !app_assoc.
Qed.

Lemma reload_effects w a :
  ∃ w' r' evs, reload (w, a) = ((w', MkApp (app_doc_map a) r'), Ok tt)
    ∧ trace w' = (trace w ++ evs)%list.
Proof.
  unfold reload. cbn [fst snd].
  destruct (load_artifacts_effects (rag_retriever a) w)
    as (w' & r' & evs & Hrun & Htr & _).
  rewrite Hrun. by exists w', r', evs.
Qed.

Lemma ingest_and_answer_effects f w a :
  ∃ w' r' rest,
    ingest_and_answer f (w, a)
    = ((w', MkApp (app_doc_map a) r'),
       Ok (Json 200 [("success", JBool true); ("filename", JStr f);
                     ("storage", JStr "walrus")]))
    ∧ trace w' = (trace w ++ EvSystem true :: rest)%list.
Proof.
  unfold ingest_and_answer, bind, io_, ret. cbn [fst snd].
  destruct (os_system_ingest_trace true w) as [k1 Hk1].
  destruct (reload_effects (os_system_ingest true w) a)
    as (w' & r' & evs & Hrun & Htr).
  rewrite Hrun. exists w', r', (k1 ++ evs)%list. split; [done|].
  rewrite Htr, Hk1. by rewrite <- app_assoc.
Qed.

Lemma truthy_Some s : s ≠ "" → truthy (Some s) = true.
Proof.
  intros Hs. unfold truthy. destruct (String.eqb_spec s ""); done.
Qed.

Lemma blob_id_for_truthy dm f :
  match blob_id_for dm f with
  | Some b => truthy (get_blob_id dm f) = true
              ∧ default "" (get_blob_id dm f) = b
  | None => truthy (get_blob_id dm f) = false
  end.
Proof.
  unfold blob_id_for, get_blob_id, truthy.
  destruct (document_map dm !! f) as [e|]; [|done]. cbn.
  by destruct (String.eqb (blob_id e) "").
Qed.

(** The local writes of the handlers may fail. *)
Context `{Disk}.

(** C6, amended: for a non-empty file name and non-empty content, when the
    prior content [p] is obtained (from the blob of the file when the map
    has one, from the local file otherwise), the blob store accepts the new
    blob, and the map file and the local file of the document can be opened
    for writing, the handler stores one blob holding [p], a newline and the
    appended content, replaces the map entry of the file by the new blob id
    (the other entries stay), rewrites the local file with the same content
    and only then starts the ingestion. *)
Theorem append_supersedes_mapping a w (f c p : string) ev e m e1 t e2 txt nb
    (Hf : f ≠ "") (Hc : c ≠ "")
    (Hprior : prior_content (app_doc_map a) w f p ev e m)
    (Hclock : clock e = (e1, t))
    (Hstore : api_store e1 (utf8_encode (p +:+ newline +:+ c)) (m t)
              = (e2, Ok (Response 200 txt (Ok nb))))
    (Hmapw : open_for_writing (map_file (app_doc_map a)) = Ok tt)
    (Hfilew : open_for_writing (os_path_join DATA_DIR f) = Ok tt) :
  ∃ w' a' t' rest,
    append_to_txt_file (JsonObject (Some f) (Some c)) (w, a)
    = ((w', a'),
       Ok (Json 200 [("success", JBool true); ("filename", JStr f);
                     ("storage", JStr "walrus")]))
    ∧ trace w'
      = (trace w
         ++ [ev;
             EvStore (utf8_encode (p +:+ newline +:+ c)) (m t) (Ok nb);
             EvWrite (map_file (app_doc_map a))
               (json_dump_map (document_map (app_doc_map a')));
             EvWrite (os_path_join DATA_DIR f)
               (utf8_encode (p +:+ newline +:+ c));
             EvSystem true]
         ++ rest)%list
    ∧ app_doc_map a'
      = MkDocumentMap (map_file (app_doc_map a))
          (<[f := Entry nb t' (m t)]> (document_map (app_doc_map a)))
    ∧ get_blob_id (app_doc_map a') f = Some nb.
Proof.
  unfold append_to_txt_file.
  rewrite (truthy_Some f Hf), (truthy_Some c Hc). cbn [negb orb default from_option id].
  unfold try_except, append_via_walrus, bind at 1, gets at 1. cbn [fst snd].
  pose proof (blob_id_for_truthy (app_doc_map a) f) as Hb.
  destruct Hprior as [old e txt0 data p Hold Hret Hdec | data p Hnone Hfile Hdec].
  - rewrite Hold in Hb. destruct Hb as [-> ->].
    unfold bind, io, lift, app_add_document, io_, retrieve_document,
      store_document, add_document, now, save_map, open_and_write,
      write_bytes, log.
    cbn [fst snd outside fs trace]. rewrite Hret. cbn [fst snd outside fs trace status_code payload Z.eqb Pos.eqb].
    rewrite Hdec. cbn [fst snd outside fs trace]. rewrite Hclock.
    cbn [fst snd outside fs trace]. rewrite Hstore.
    cbn [fst snd outside fs trace status_code payload Z.eqb Pos.eqb].
    destruct (clock e2) as [e3 t'] eqn:Hclock2.
    cbn [fst snd outside fs trace app_doc_map rag_retriever default].
    rewrite Hmapw. cbn [fst snd outside fs trace app_doc_map rag_retriever].
    rewrite Hfilew. cbn [fst snd outside fs trace app_doc_map rag_retriever].
    match goal with
    | |- context [ingest_and_answer f (?w0, ?a0)] =>
        destruct (ingest_and_answer_effects f w0 a0)
          as (w' & r' & rest & Hrun & Htr)
    end.
    rewrite Hrun. eexists w', _, t', rest. split; [reflexivity|].
    cbn [app_doc_map document_map map_file trace] in *.
    split; [by rewrite Htr, <- !app_assoc|]. split; [done|].
    unfold get_blob_id. cbn [document_map]. by rewrite lookup_insert_eq.
  - rewrite Hnone in Hb. rewrite Hb.
    assert (exists_ (os_path_join DATA_DIR f) w = true) as Hex.
    { unfold exists_. apply bool_decide_eq_true_2. rewrite Hfile. eauto. }
    unfold bind at 1, gets at 1. cbn [fst snd]. rewrite Hex. cbn [negb].
    unfold bind, io, lift, app_add_document, io_, read_text, open_read,
      store_document, add_document, now, save_map, open_and_write,
      write_bytes, log.
    cbn [fst snd outside fs trace]. rewrite Hfile, Hdec.
    cbn [fst snd outside fs trace]. rewrite Hclock.
    cbn [fst snd outside fs trace]. rewrite Hstore.
    cbn [fst snd outside fs trace status_code payload Z.eqb Pos.eqb].
    destruct (clock e2) as [e3 t'] eqn:Hclock2.
    cbn [fst snd outside fs trace app_doc_map rag_retriever default].
    rewrite Hmapw. cbn [fst snd outside fs trace app_doc_map rag_retriever].
    rewrite Hfilew. cbn [fst snd outside fs trace app_doc_map rag_retriever].
    match goal with
    | |- context [ingest_and_answer f (?w0, ?a0)] =>
        destruct (ingest_and_answer_effects f w0 a0)
          as (w' & r' & rest & Hrun & Htr)
    end.
    rewrite Hrun. eexists w', _, t', rest. split; [reflexivity|].
    cbn [app_doc_map document_map map_file trace] in *.
    split; [by rewrite Htr, <- !app_assoc|]. split; [done|].
    unfold get_blob_id. cbn [document_map]. by rewrite lookup_insert_eq.
Qed.

End Properties.

(** * The properties at concrete inputs *)

Lemma add_then_get_blob_id_witness :
  document_map (MkDocumentMap "document_map.json" ∅) !! "beta.txt" = None
  ∧ (get_blob_id
      (@add_document (Demo.env true) Demo.lib
         (MkDocumentMap "document_map.json" ∅) "alpha.txt" "blob:a" None
         (Demo.start true)).2 "alpha.txt" = Some "blob:a"
    ∧ get_blob_id (MkDocumentMap "document_map.json" ∅) "beta.txt" = None
    ∧ get_blob_id
        (@remove_document (Demo.env true) Demo.lib
           (MkDocumentMap "document_map.json" ∅) "alpha.txt"
           (Demo.start true)).1.2 "alpha.txt" = None).
Proof.
  split; [reflexivity|].
  apply (@add_then_get_blob_id (Demo.env true) Demo.lib). reflexivity.
Defined.

Lemma missing_or_invalid_map_file_witness :
  fs (Demo.start true) !! "document_map.json" = None
  ∧ ∃ dm, @DocumentMap_init (Demo.env true) Demo.lib "document_map.json"
            (Demo.start true) = Ok dm
      ∧ (∀ f, get_blob_id dm f = None)
      ∧ list_documents dm = [].
Proof.
  split; [reflexivity|].
  destruct (@missing_or_invalid_map_file (Demo.env true) Demo.lib
              "document_map.json" (Demo.start true))
    as (dm & Hinit & Hget & Hlist & _).
  - left. reflexivity.
  - exists dm. repeat split; assumption.
Defined.

Lemma degraded_retriever_returns_empty_witness :
  @retrieve_documents (Demo.env true) Demo.lib
    (set_index None (Demo.serving)) "fruit" 3 (Demo.start true)
  = (Demo.start true, Ok []).
Proof.
  apply (@degraded_retriever_returns_empty (Demo.env true) Demo.lib).
  left. reflexivity.
Defined.

(** C9: with one document in the index and [k = 3] the search pads its row
    with [-1]; the guard of the loop lets [-1] through, Python's indexing
    reads the last record for it, and the result has three entries. *)
Lemma padding_labels_index_the_last_record :
  @faiss_search Demo.lib [[18]] [5] 3 = Ok [0; -1; -1]
  ∧ py_index [Demo.alpha] (-1) = Ok Demo.alpha
  ∧ (@retrieve_documents (Demo.env true) Demo.lib (Demo.serving)
       "fruit" 3 (Demo.start true)).2
    = Ok [Doc "apples and bananas" "alpha.txt" "data/alpha.txt" "local";
          Doc "apples and bananas" "alpha.txt" "data/alpha.txt" "local";
          Doc "apples and bananas" "alpha.txt" "data/alpha.txt" "local"].
Proof. split; [|split]; vm_compute; reflexivity. Qed.

Lemma retrieve_documents_deterministic_witness :
  @fixed_environment (Demo.env true)
  ∧ (@retrieve_documents (Demo.env true) Demo.lib (Demo.serving) "fruit" 1
      (@retrieve_documents (Demo.env true) Demo.lib (Demo.serving)
         "fruit" 1 (Demo.start true)).1).2
    = (@retrieve_documents (Demo.env true) Demo.lib (Demo.serving)
         "fruit" 1 (Demo.start true)).2.
Proof.
  assert (@fixed_environment (Demo.env true)) as Hfixed.
  { intros e b. reflexivity. }
  split; [exact Hfixed|].
  apply (@retrieve_documents_deterministic (Demo.env true) Demo.lib).
  exact Hfixed.
Defined.


Lemma retrieve_documents_resolution_witness :
  ∃ w' docs,
    @retrieve_documents (Demo.env true) Demo.lib (Demo.serving)
      "fruit" 3 (Demo.start true) = (w', Ok docs)
    ∧ resolve_all_spec (doc_map (Demo.serving))
        (selected [Demo.alpha] [0; -1; -1]) (Demo.start true) = (w', docs)
    ∧ (length docs ≤ 3)%nat.
Proof.
  apply (@retrieve_documents_resolution (Demo.env true) Demo.lib
           (Demo.serving) "fruit" 3 (Demo.start true)
           [[18]] tt Demo.alpha [] [0; -1; -1]);
    [reflexivity | reflexivity | reflexivity | vm_compute; reflexivity |].
  repeat constructor; lia.
Defined.

Lemma create_embeddings_local_first_witness :
  ∃ w' g' rest,
    @create_embeddings (Demo.env false) Demo.lib
      (Demo.start false, Demo.loaded) = ((w', g'), Ok tt)
    ∧ trace w'
      = (trace (Demo.start false)
         ++ [EvWrite "vector_store/faiss_index.bin" "faiss";
             EvWrite "vector_store/vectorizer.pkl" "vectorizer";
             EvWrite "vector_store/metadata.pkl" "metadata"]
         ++ rest)%list
    ∧ fs w' !! "vector_store/faiss_index.bin" = Some "faiss"
    ∧ fs w' !! "vector_store/vectorizer.pkl" = Some "vectorizer"
    ∧ fs w' !! "vector_store/metadata.pkl" = Some "metadata"
    ∧ (∀ d m e, EvStore d m (Raise e) ∈ rest → EvPrint failed_message ∈ rest).
Proof.
  apply (@create_embeddings_local_first (Demo.env false) Demo.lib
           (Demo.start false) Demo.loaded "apples and bananas" [] tt [[18]]);
    reflexivity.
Defined.

Lemma ingestion_alignment_witness :
  let run := @process_documents (Demo.env true) Demo.lib
               (Demo.start true, Demo.fresh) in
  @DocumentIngester_init (Demo.env true) Demo.lib None "vector_store" true
    (Demo.start true) = Ok Demo.fresh
  ∧ run.2 = Ok tt
  ∧ length (i_document_metadata run.1.2) = length (documents run.1.2).
Proof.
  intros run.
  split; [reflexivity|]. split; [vm_compute; reflexivity|].
  apply (@ingestion_alignment (Demo.env true) Demo.lib None "vector_store"
           true (Demo.start true) Demo.fresh run.1.1 run.1.2).
  - reflexivity.
  - vm_compute. reflexivity.
Defined.

(** C6 as stated fails: with the blob service down the handler appends to
    the local file only, stores no blob and leaves the map without a blob id
    for the file; with the service up the blob holds the prior content, a
    newline and the appended content, which is not their concatenation; and
    an empty content is refused. *)
Lemma append_without_blob_store :
  (let run := @append_to_txt_file (Demo.env false) Demo.lib Demo.disk
                (JsonObject (Some "alpha.txt") (Some "cherries"))
                (Demo.start false, Demo.app) in
   fs (Demo.start false) !! "data/alpha.txt" = Some "apples and bananas"
   ∧ run.2 = Ok (Json 200 [("success", JBool true);
                           ("filename", JStr "alpha.txt");
                           ("storage", JStr "local");
                           ("walrus_error", JStr "connection refused")])
   ∧ List.filter is_stored (trace run.1.1) = []
   ∧ get_blob_id (app_doc_map run.1.2) "alpha.txt" = None)
  ∧ (let run := @append_to_txt_file (Demo.env true) Demo.lib Demo.disk
                  (JsonObject (Some "alpha.txt") (Some "cherries"))
                  (Demo.start true, Demo.app) in
     head (List.filter is_stored (trace run.1.1))
     = Some (EvStore ("apples and bananas" +:+ newline +:+ "cherries")
               (appended_metadata "alpha.txt" "2024-01-01T00:00:00")
               (Ok (Demo.blob_name
                      ("apples and bananas" +:+ newline +:+ "cherries"))))
     ∧ "apples and bananas" +:+ newline +:+ "cherries"
       ≠ "apples and bananas" +:+ "cherries")
  ∧ @append_to_txt_file (Demo.env true) Demo.lib Demo.disk
      (JsonObject (Some "alpha.txt") (Some "")) (Demo.start true, Demo.app)
    = ((Demo.start true, Demo.app),
       Ok (Json 400 [("error", JStr "Missing filename or content")])).
Proof.
  split; [|split].
  - cbv zeta. repeat split; vm_compute; reflexivity.
  - cbv zeta. split; [vm_compute; reflexivity|]. vm_compute. discriminate.
  - vm_compute. reflexivity.
Qed.

Lemma append_supersedes_mapping_witness :
  ∃ w' a',
    @append_to_txt_file (Demo.env true) Demo.lib Demo.disk
      (JsonObject (Some "alpha.txt") (Some "cherries"))
      (Demo.start true, Demo.app)
    = ((w', a'),
       Ok (Json 200 [("success", JBool true); ("filename", JStr "alpha.txt");
                     ("storage", JStr "walrus")]))
    ∧ get_blob_id (app_doc_map a') "alpha.txt"
      = Some (Demo.blob_name ("apples and bananas" +:+ newline +:+ "cherries")).
Proof.
  destruct (@append_supersedes_mapping (Demo.env true) Demo.lib Demo.disk
              Demo.app
              (Demo.start true) "alpha.txt" "cherries" "apples and bananas"
              (EvRead "data/alpha.txt" (Ok "apples and bananas")) []
              (appended_metadata "alpha.txt") [] "2024-01-01T00:00:00"
              [(Demo.blob_name ("apples and bananas" +:+ newline +:+ "cherries"),
                "apples and bananas" +:+ newline +:+ "cherries")]
              ""
              (Demo.blob_name ("apples and bananas" +:+ newline +:+ "cherries")))
    as (w' & a' & t' & rest & Hrun & _ & _ & Hget).
  - discriminate.
  - discriminate.
  - apply (@prior_local (Demo.env true) (app_doc_map Demo.app)
             (Demo.start true) "alpha.txt" "apples and bananas"
             "apples and bananas"); reflexivity.
  - reflexivity.
  - reflexivity.
  - reflexivity.
  - reflexivity.
  - exists w', a'. split; assumption.
Defined.

(** * More of the code *)

Ltac note_io :=
  repeat match goal with
  | Hr : retrieve_document ?b ?w = (?w1, ?res) |- _ =>
      apply retrieve_document_effects in Hr as [? ?]
  | Hr : read_text ?p ?w = (?w1, ?res) |- _ =>
      apply read_text_effects in Hr as [? ?]
  | Hr : store_document ?c ?m ?w = (?w1, ?res) |- _ =>
      apply store_document_effects in Hr as [? [? ?]]
  | Hr : add_document ?dm ?f ?b ?m ?w = (?w1, ?dm1) |- _ =>
      apply add_document_effects in Hr as (? & ? & ? & ?)
  end.

Section MapProperties.
Context `{Environment} `{Libraries}.

(** X1: removing a file a second time returns [False], writes nothing and
    leaves the map as it is; the first removal returns [True] exactly when the
    file was in the map, and otherwise changes nothing either. *)
Theorem remove_document_idempotent dm f w w2 :
  remove_document (remove_document dm f w).1.2 f w2
  = (w2, (remove_document dm f w).1.2, false)
  ∧ ((remove_document dm f w).2 = true ↔ is_Some (document_map dm !! f))
  ∧ ((remove_document dm f w).2 = true
     ∨ remove_document dm f w = (w, dm, false)).
Proof.
  assert (∀ dm' w', document_map dm' !! f = None →
            remove_document dm' f w' = (w', dm', false)) as Hnone.
  { intros dm' w' Hno. unfold remove_document, document_exists.
    rewrite bool_decide_eq_false_2; [done|]. rewrite Hno. by intros [? ?]. }
  destruct (document_map dm !! f) as [x|] eqn:Hf.
  - assert (remove_document dm f w
            = (save_map (MkDocumentMap (map_file dm) (delete f (document_map dm))) w,
               MkDocumentMap (map_file dm) (delete f (document_map dm)), true))
      as ->.
    { unfold remove_document, document_exists.
      rewrite bool_decide_eq_true_2; [done|]. rewrite Hf. eauto. }
    cbn [fst snd]. split.
    + apply Hnone. cbn [document_map]. apply lookup_delete_eq.
    + split; [split; eauto|by left].
  - rewrite (Hnone dm w Hf). cbn [fst snd]. split; [by apply Hnone|].
    split; [|by right]. split; [done|]. by intros [? ?].
Qed.

(** X2: a second [add_document] for a file leaves the map as if only the
    second had been made; the file is then listed once, exists, and maps to
    the second blob id, and the blob id of any other file is unchanged. *)
Theorem add_document_supersedes dm (f g b1 b2 : string) m1 m2 w w2
    (Hg : g ≠ f) :
  let dm1 := (add_document dm f b1 m1 w).2 in
  let dm2 := (add_document dm1 f b2 m2 w2).2 in
  document_map dm2 = document_map (add_document dm f b2 m2 w2).2
  ∧ get_blob_id dm2 f = Some b2
  ∧ get_blob_id dm2 g = get_blob_id dm g
  ∧ document_exists dm2 f = true
  ∧ f ∈ list_documents dm2
  ∧ NoDup (list_documents dm2).
Proof.
  unfold add_document, now, get_blob_id, document_exists, list_documents.
  destruct (clock (outside w)) as [e1 t1].
  destruct (clock (outside w2)) as [e2 t2]. cbn [fst snd document_map].
  split; [by rewrite insert_insert_eq|].
  split; [by rewrite lookup_insert_eq|].
  split; [by rewrite !lookup_insert_ne|].
  split; [apply bool_decide_eq_true_2; rewrite lookup_insert_eq; eauto|].
  split; [|apply NoDup_fst_map_to_list].
  apply list_elem_of_fmap. eexists (f, _). split; [done|].
  apply elem_of_map_to_list. by rewrite lookup_insert_eq.
Qed.

(** X3: when the JSON codec gives back the map it dumped, a [DocumentMap]
    built from the file left by [add_document], or by a [remove_document]
    that removed something, is the map held in memory. *)
Theorem mutations_are_persisted dm (f b : string) m w
    (Hadd : json_load_map (json_dump_map (document_map (add_document dm f b m w).2))
            = Ok (document_map (add_document dm f b m w).2))
    (Hdel : json_load_map (json_dump_map (delete f (document_map dm)))
            = Ok (delete f (document_map dm))) :
  DocumentMap_init (map_file dm) (add_document dm f b m w).1
  = Ok (add_document dm f b m w).2
  ∧ (is_Some (document_map dm !! f) →
     DocumentMap_init (map_file dm) (remove_document dm f w).1.1
     = Ok (remove_document dm f w).1.2).
Proof.
  split.
  - revert Hadd. unfold add_document, now, save_map, write_bytes, log.
    destruct (clock (outside w)) as [e t]. cbn [fst snd document_map map_file].
    intros Hadd. unfold DocumentMap_init, _load_map, open_read. cbn [fs].
    by rewrite lookup_insert_eq, Hadd.
  - intros Hin. unfold remove_document, document_exists.
    rewrite bool_decide_eq_true_2 by done. cbn [fst snd].
    unfold DocumentMap_init, _load_map, open_read, save_map, write_bytes, log.
    cbn [fs document_map map_file]. by rewrite lookup_insert_eq, Hdel.
Qed.

(** X4: an exception of reading the map file that is neither
    [FileNotFoundError] nor [JSONDecodeError] (undecodable bytes, say) is not
    swallowed: building the [DocumentMap] raises it. *)
Theorem load_map_propagates_other_errors path w data e
    (Hfile : fs w !! path = Some data)
    (Hload : json_load_map data = Raise e)
    (Hcls : class_of e ≠ JSONDecodeError ∧ class_of e ≠ FileNotFoundError) :
  DocumentMap_init path w = Raise e.
Proof.
  unfold DocumentMap_init, _load_map, open_read. rewrite Hfile, Hload.
  destruct Hcls as [H1 H2]. by destruct (class_of e).
Qed.
End MapProperties.

Lemma add_document_supersedes_witness :
  "beta.txt" ≠ "alpha.txt"
  ∧ get_blob_id
      (@add_document (Demo.env true) Demo.lib
         (@add_document (Demo.env true) Demo.lib
            (MkDocumentMap "document_map.json" ∅) "alpha.txt" "blob:a" None
            (Demo.start true)).2
         "alpha.txt" "blob:b" None (Demo.start true)).2 "alpha.txt"
    = Some "blob:b".
Proof.
  split; [discriminate|].
  apply (@add_document_supersedes (Demo.env true) Demo.lib
           (MkDocumentMap "document_map.json" ∅) "alpha.txt" "beta.txt"
           "blob:a" "blob:b" None None (Demo.start true) (Demo.start true)).
  discriminate.
Defined.

Lemma mutations_are_persisted_witness :
  @DocumentMap_init (Demo.env true) Demo2.lib "document_map.json"
    (@add_document (Demo.env true) Demo2.lib
       (MkDocumentMap "document_map.json" ∅) "alpha.txt" "blob:a" None
       (Demo.start true)).1
  = Ok (@add_document (Demo.env true) Demo2.lib
          (MkDocumentMap "document_map.json" ∅) "alpha.txt" "blob:a" None
          (Demo.start true)).2.
Proof.
  apply (@mutations_are_persisted (Demo.env true) Demo2.lib
           (MkDocumentMap "document_map.json" ∅) "alpha.txt" "blob:a" None
           (Demo.start true)).
  - vm_compute. reflexivity.
  - vm_compute. reflexivity.
Defined.

Lemma load_map_propagates_other_errors_witness :
  @DocumentMap_init (Demo.env true) Demo2.lib "document_map.json"
    (Demo2.undecodable true)
  = Raise (Exn UnicodeDecodeError "invalid start byte").
Proof.
  apply (@load_map_propagates_other_errors (Demo.env true) Demo2.lib
           "document_map.json" (Demo2.undecodable true) "bad bytes").
  - reflexivity.
  - reflexivity.
  - split; discriminate.
Defined.
Section ReadProperties.
Context `{Environment} `{Libraries}.

Lemma from_local_effects d w :
  (from_local d w).2 = local_doc w d
  ∧ fs (from_local d w).1 = fs w
  ∧ outside (from_local d w).1 = outside w
  ∧ ∃ evs, trace (from_local d w).1 = (trace w ++ evs)%list
      ∧ Forall (fun ev => is_retrieval ev || is_read ev = true) evs.
Proof.
  unfold from_local, local_doc, exists_, read_text, open_read, log.
  destruct (fs w !! file_path d) as [data|] eqn:Hf.
  - rewrite bool_decide_eq_true_2 by eauto. cbn [fst snd fs trace outside].
    split; [by destruct (utf8_decode data)|]. do 2 (split; [done|]).
    eexists. split; [done|]. by repeat constructor.
  - rewrite bool_decide_eq_false_2 by (by intros [? ?]).
    do 3 (split; [done|]). exists []. by rewrite app_nil_r.
Qed.

Lemma from_remote_effects dm d w :
  fs (from_remote dm d w).1 = fs w
  ∧ ∃ evs, trace (from_remote dm d w).1 = (trace w ++ evs)%list
      ∧ Forall (fun ev => is_retrieval ev || is_read ev = true) evs.
Proof.
  unfold from_remote.
  destruct (blob_id_for dm (file_name d)) as [b|].
  - destruct (retrieve_document b w) as [w1 res] eqn:Hr.
    apply retrieve_document_effects in Hr as [Hfs Htr]. cbn [fst].
    split; [done|]. eexists. split; [exact Htr|]. by repeat constructor.
  - split; [done|]. exists []. by rewrite app_nil_r.
Qed.

Lemma resolve_spec_effects dm d w :
  fs (resolve_spec dm d w).1 = fs w
  ∧ ∃ evs, trace (resolve_spec dm d w).1 = (trace w ++ evs)%list
      ∧ Forall (fun ev => is_retrieval ev || is_read ev = true) evs.
Proof.
  unfold resolve_spec.
  destruct (from_remote_effects dm d w) as (Hfs & evs & Htr & Hall).
  destruct (from_remote dm d w) as [w1 [x|]]; cbn [fst] in *.
  - split; [done|]. by exists evs.
  - destruct (from_local_effects d w1) as (_ & Hfs2 & _ & evs2 & Htr2 & Hall2).
    split; [congruence|]. exists (evs ++ evs2)%list.
    rewrite Htr2, Htr, app_assoc. split; [done|]. by apply Forall_app.
Qed.

Lemma for_each_resolve_effects r md labels : ∀ w acc,
  fs (for_each labels (resolve r md) (w, acc)).1.1 = fs w
  ∧ ∃ evs,
      trace (for_each labels (resolve r md) (w, acc)).1.1 = (trace w ++ evs)%list
      ∧ Forall (fun ev => is_retrieval ev || is_read ev = true) evs.
Proof.
  induction labels as [|idx labels IH]; intros w acc.
  { split; [done|]. exists []. by rewrite app_nil_r. }
  cbn [for_each]. unfold bind. rewrite resolve_step.
  destruct (idx <? Z.of_nat (length md)); [|apply IH].
  destruct (py_index md idx) as [d|e].
  - destruct (resolve_spec_effects (doc_map r) d w) as (Hfs & evs & Htr & Hall).
    destruct (resolve_spec (doc_map r) d w) as [w1 o]. cbn [fst] in *.
    destruct (IH w1 (acc ++ option_list o)%list) as (Hfs2 & evs2 & Htr2 & Hall2).
    split; [congruence|]. exists (evs ++ evs2)%list.
    rewrite Htr2, Htr, app_assoc. split; [done|]. by apply Forall_app.
  - split; [done|]. exists []. by rewrite app_nil_r.
Qed.

(** X5: [retrieve_documents] leaves the file system as it is, and all it
    does is retrieve blobs and read files; it never stores or writes. *)
Theorem retrieve_documents_only_reads r (q : string) (k : Z) w :
  fs (retrieve_documents r q k w).1 = fs w
  ∧ ∃ evs,
      trace (retrieve_documents r q k w).1 = (trace w ++ evs)%list
      ∧ Forall (fun ev => is_retrieval ev || is_read ev = true) evs.
Proof.
  assert (fs w = fs w ∧ ∃ evs, trace w = (trace w ++ evs)%list
            ∧ Forall (fun ev => is_retrieval ev || is_read ev = true) evs)
    as Hsame.
  { split; [done|]. exists []. by rewrite app_nil_r. }
  unfold retrieve_documents.
  destruct (not_initialized r); [done|].
  destruct (index r) as [ix|]; [|done].
  destruct (vectorizer r) as [v|]; [|done].
  destruct (document_metadata r) as [md|]; [|done].
  destruct (faiss_search ix (tfidf_transform v q) k) as [labels|e]; [|done].
  pose proof (for_each_resolve_effects r md labels w []) as Heff.
  by destruct (for_each labels (resolve r md) (w, [])) as [[w1 docs] res].
Qed.

Lemma resolve_spec_unreachable dm d w :
  retrieval_fails →
  (resolve_spec dm d w).2 = local_doc w d ∧ fs (resolve_spec dm d w).1 = fs w.
Proof.
  intros Hdown. unfold resolve_spec, from_remote.
  destruct (blob_id_for dm (file_name d)) as [b|].
  - destruct (Hdown w b) as [x Hx].
    destruct (retrieve_document b w) as [w1 res] eqn:Hr.
    cbn [snd] in Hx. subst res.
    apply retrieve_document_effects in Hr as [Hfs _].
    destruct (from_local_effects d w1) as (Hl & Hfs2 & _).
    split; [|congruence]. rewrite Hl. unfold local_doc. by rewrite Hfs.
  - by destruct (from_local_effects d w) as (Hl & Hfs2 & _).
Qed.

Lemma resolve_all_spec_unreachable dm ds : ∀ w,
  retrieval_fails →
  (resolve_all_spec dm ds w).2 = omap (local_doc w) ds.
Proof.
  induction ds as [|d ds IH]; intros w Hdown; [done|].
  cbn [resolve_all_spec omap list_omap].
  destruct (resolve_spec_unreachable dm d w Hdown) as [Hd Hfs].
  destruct (resolve_spec dm d w) as [w1 o]. cbn [fst snd] in *. subst o.
  specialize (IH w1 Hdown).
  destruct (resolve_all_spec dm ds w1) as [w2 xs]. cbn [snd] in *. subst xs.
  assert (omap (local_doc w1) ds = omap (local_doc w) ds) as ->.
  { apply list_omap_ext. apply Forall2_same_length_lookup_2; [done|].
    intros i x y Hx Hy. simplify_eq. unfold local_doc. by rewrite Hfs. }
  by destruct (local_doc w d).
Qed.

(** X6: when every retrieval fails, [retrieve_documents] still answers: the
    result holds, in order, the local file of each picked record whose file
    exists and decodes, tagged [local]. *)
Theorem unreachable_service_serves_local_files r (q : string) (k : Z) w
    ix v m md labels
    (Hdown : retrieval_fails)
    (Hix : index r = Some ix) (Hv : vectorizer r = Some v)
    (Hmd : document_metadata r = Some (m :: md))
    (Hsearch : faiss_search ix (tfidf_transform v q) k = Ok labels)
    (Hlabels : Forall (fun i => -1 ≤ i) labels) :
  (retrieve_documents r q k w).2
  = Ok (omap (local_doc w) (selected (m :: md) labels)).
Proof.
  unfold retrieve_documents, not_initialized.
  rewrite Hix, Hv, Hmd.
  rewrite !bool_decide_eq_true_2 by eauto. cbn [negb orb].
  rewrite Hsearch.
  assert (Forall (fun i => - Z.of_nat (length (m :: md)) ≤ i) labels) as Hall.
  { eapply Forall_impl; [exact Hlabels|]. intros i Hi.
    cbn beta in Hi |- *. cbn [length]. lia. }
  destruct (for_each_resolve r (m :: md) labels w [] Hall)
    as (w' & docs & Hrun & Hspec).
  rewrite Hrun. cbn [snd].
  pose proof (resolve_all_spec_unreachable (doc_map r)
                (selected (m :: md) labels) w Hdown) as Hloc.
  rewrite Hspec in Hloc. cbn [snd] in Hloc. by rewrite Hloc.
Qed.
End ReadProperties.

Lemma unreachable_service_serves_local_files_witness :
  @retrieval_fails (Demo.env false)
  ∧ (@retrieve_documents (Demo.env false) Demo.lib Demo.serving "fruit" 1
       (Demo.start false)).2
    = Ok (omap (@local_doc (Demo.env false) (Demo.start false))
            (selected [Demo.alpha] [0])).
Proof.
  assert (@retrieval_fails (Demo.env false)) as Hdown.
  { intros w b. eexists. reflexivity. }
  split; [exact Hdown|].
  apply (@unreachable_service_serves_local_files (Demo.env false) Demo.lib
           Demo.serving "fruit" 1 (Demo.start false) [[18]] tt Demo.alpha []
           [0] Hdown); [reflexivity..|].
  repeat constructor; lia.
Defined.
Section ArtifactProperties.
Context `{Environment} `{Libraries}.

(** X7: [save_artifacts_to_walrus] never raises.  It returns [True] only
    after three accepted stores, and only then writes the side-table file,
    with the three new ids; when a store fails it returns [False], no later
    artifact is stored and the file system is untouched; on a retriever that
    is not initialized it returns [None] and does nothing. *)
Theorem save_artifacts_all_or_nothing w r :
  let '((w', r'), res) := save_artifacts_to_walrus (w, r) in
  match res with
  | Ok (Some true) =>
      ∃ di dv dm bi bv bm mi mv mm,
        trace w'
        = (trace w
           ++ [EvStore di mi (Ok bi); EvStore dv mv (Ok bv);
               EvStore dm mm (Ok bm);
               EvWrite vector_store_blob_ids_file
                 (json_dump_ids (vector_store_blob_ids r'))])%list
        ∧ vector_store_blob_ids r'
          = <["metadata" := bm]>
              (<["vectorizer" := bv]>
                 (<["index" := bi]> (vector_store_blob_ids r)))
        ∧ fs w' = <[vector_store_blob_ids_file
                     := json_dump_ids (vector_store_blob_ids r')]> (fs w)
  | Ok (Some false) =>
      fs w' = fs w
      ∧ ∃ evs d m e, trace w' = (trace w ++ evs ++ [EvStore d m (Raise e)])%list
          ∧ Forall (fun ev => is_stored ev = true) evs
  | Ok None => w' = w ∧ r' = r ∧ not_initialized r = true
  | Raise _ => False
  end.
Proof.
  destruct (save_artifacts_to_walrus (w, r)) as [[w' r'] res] eqn:Hrun.
  revert Hrun.
  unfold save_artifacts_to_walrus, _save_vector_store_blob_ids, write_bytes,
    log, try_except, bind, io, update, ret.
  cbn [fst snd fs trace outside]. intros Hrun.
  repeat case_match; simplify_eq; cbn [fst snd fs trace outside] in *;
    simplify_eq; note_io.
  all: repeat match goal with
         | Ht : trace _ = _ |- _ => rewrite Ht; clear Ht
         | Hf : fs _ = _ |- _ => rewrite Hf; clear Hf
         end.
  all: rewrite <- ?app_assoc.
  all: try (by repeat split).
  all: try (exfalso;
            match goal with Hn : not_initialized _ = false |- _ =>
              unfold not_initialized in Hn;
              repeat match goal with
                     | Hx : _ = None |- _ => rewrite Hx in Hn
                     | Hx : _ = Some _ |- _ => rewrite Hx in Hn
                     end;
              cbn in Hn; rewrite ?orb_true_r in Hn; discriminate
            end).
  - do 9 eexists. split; [reflexivity|]. split; reflexivity.
  - split; [done|]. eexists [_; _], _, _, _. split; [reflexivity|].
    by repeat constructor.
  - split; [done|]. eexists [_], _, _, _. split; [reflexivity|].
    by repeat constructor.
  - split; [done|]. eexists [], _, _, _. split; [reflexivity|].
    by repeat constructor.
Qed.

Lemma load_local_found {A} path (loads : bytes → exc A) set w r data a :
  fs w !! path = Some data → loads data = Ok a →
  load_local path loads set (w, r) = ((w, set (Some a) r), Ok tt).
Proof.
  intros Hf Hl. unfold load_local, bind, lift, update, gets, exists_.
  cbn [fst snd]. rewrite bool_decide_eq_true_2 by eauto.
  cbn [fst snd]. unfold open_read. cbn [fst snd]. by rewrite Hf, Hl.
Qed.

(** X8: after [create_embeddings] has built an index, a retriever on the
    same directory whose side-table is incomplete loads from the local files
    exactly the index, the vectorizer and the metadata that were built,
    provided the codecs give back what they serialized. *)
Theorem ingest_then_load_locally w g c cs v ix r
    (Hdocs : documents g = c :: cs)
    (Hbuild : build_index (documents g) = Ok (v, ix))
    (Hix : read_index (serialize_index ix) = Ok ix)
    (Hv : pickle_loads_vectorizer (pickle_dumps_vectorizer v) = Ok v)
    (Hmd : pickle_loads_metadata (pickle_dumps_metadata (i_document_metadata g))
           = Ok (i_document_metadata g))
    (Hdir : vector_store_dir r = i_vector_store_dir g)
    (Hids : has_all_artifacts (vector_store_blob_ids r) = false) :
  ∃ w' r',
    load_artifacts ((create_embeddings (w, g)).1.1, r) = ((w', r'), Ok tt)
    ∧ index r' = Some ix
    ∧ vectorizer r' = Some v
    ∧ document_metadata r' = Some (i_document_metadata g).
Proof.
  destruct (create_embeddings (w, g)) as [[w1 g1] res] eqn:Hrun.
  apply create_embeddings_effects in Hrun as (_ & _ & Hrun).
  rewrite Hbuild, Hdocs in Hrun.
  destruct Hrun as (_ & _ & rest & _ & Hfi & Hfv & Hfm & _).
  cbn [fst snd]. rewrite <- Hdir in Hfi, Hfv, Hfm.
  unfold load_artifacts, try_except, bind at 1, gets at 1. cbn [fst snd].
  rewrite Hids. unfold bind at 1, ret at 1.
  unfold load_from_local, bind, gets. cbn [fst snd].
  rewrite (load_local_found _ _ _ _ _ _ _ Hfi Hix).
  cbn [vector_store_dir set_index].
  rewrite (load_local_found _ _ _ _ _ _ _ Hfv Hv).
  rewrite (load_local_found _ _ _ _ _ _ _ Hfm Hmd).
  eexists _, _. split; [reflexivity|]. done.
Qed.

(** X9: when the side-table file is missing or cannot be parsed, building a
    retriever makes no retrieval from the blob store, its side-table is
    empty, and its artifacts are absent or come from the local files. *)
Theorem lost_side_table_forces_local dir w
    (Hlost : fs w !! vector_store_blob_ids_file = None
             ∨ ∃ data e, fs w !! vector_store_blob_ids_file = Some data
                         ∧ json_load_ids data = Raise e) :
  let '(w', res) := DocumentRetriever_init dir w in
  ∃ evs, trace w' = (trace w ++ evs)%list
    ∧ Forall (fun ev => is_retrieval ev = false) evs
    ∧ match res with
      | Ok r => vector_store_blob_ids r = ∅ ∧ loaded_from_local_disk w r
      | Raise _ => w' = w
      end.
Proof.
  assert (_load_vector_store_blob_ids w = ∅) as Hempty.
  { unfold _load_vector_store_blob_ids, exists_, open_read.
    destruct Hlost as [Hno | (data & e & Hf & Hl)].
    - rewrite Hno. by rewrite bool_decide_eq_false_2 by (by intros [? ?]).
    - rewrite Hf, Hl. by case_bool_decide. }
  unfold DocumentRetriever_init.
  destruct (DocumentMap_init default_map_file w) as [dm|e].
  - rewrite Hempty.
    destruct (load_artifacts_effects
                (MkDocumentRetriever dir None None None dm ∅) w)
      as (w1 & r1 & evs & Hload & Htr & _ & _ & _ & Hids & _ & Hattempt & Htier).
    rewrite Hload. exists evs. split; [done|].
    assert (Forall (fun ev => is_retrieval ev = false) evs) as Hnone.
    { destruct Hattempt as [Hall|?]; [|done]. by vm_compute in Hall. }
    split; [done|]. split; [done|].
    destruct Htier as [Hremote|?]; [|done].
    destruct Hremote as (ii & ? & ? & ? & ? & ? & ? & ? & ? & Hii & _).
    cbn in Hii. by rewrite lookup_empty in Hii.
  - exists []. rewrite app_nil_r. by repeat split.
Qed.
End ArtifactProperties.

Section BlobInfoProperties.
Context `{Environment} `{Libraries} `{!Listing}.

End BlobInfoProperties.

Lemma ingest_then_load_locally_witness :
  ∃ w' r',
    @load_artifacts (Demo.env true) Demo2.lib
      ((@create_embeddings (Demo.env true) Demo2.lib
          (Demo.start true, Demo2.loaded)).1.1, Demo2.blank)
    = ((w', r'), Ok tt)
    ∧ index r' = Some [[18]]
    ∧ vectorizer r' = Some tt
    ∧ document_metadata r' = Some [Demo.alpha].
Proof.
  apply (@ingest_then_load_locally (Demo.env true) Demo2.lib
           (Demo.start true) Demo2.loaded "apples and bananas" [] tt [[18]]
           Demo2.blank); reflexivity.
Defined.

Lemma lost_side_table_forces_local_witness :
  fs (Demo.start true) !! vector_store_blob_ids_file = None
  ∧ ∃ r, (@DocumentRetriever_init (Demo.env true) Demo2.lib "vector_store"
            (Demo.start true)).2 = Ok r
      ∧ vector_store_blob_ids r = ∅.
Proof.
  split; [reflexivity|].
  pose proof (@lost_side_table_forces_local (Demo.env true) Demo2.lib
                "vector_store" (Demo.start true) (or_introl eq_refl)) as Hl.
  destruct (@DocumentRetriever_init (Demo.env true) Demo2.lib "vector_store"
              (Demo.start true)) as [w' [r|e]] eqn:Hinit.
  - destruct Hl as (evs & _ & _ & Hids & _). exists r. split; [reflexivity|].
    exact Hids.
  - vm_compute in Hinit. discriminate.
Defined.
Section NameProperties.
Context `{Environment} `{Libraries}.

Lemma substring_all s : String.substring 0 (String.length s) s = s.
Proof. induction s as [|c s IH]; [done|]. cbn. by rewrite IH. Qed.

Lemma substring_skip p s n :
  String.substring (String.length p) n (p +:+ s) = String.substring 0 n s.
Proof. induction p as [|c p IH]; [done|]. cbn. exact IH. Qed.

Lemma string_length_app (p s : string) :
  String.length (p +:+ s) = (String.length p + String.length s)%nat.
Proof. induction p as [|c p IH]; [done|]. simpl. f_equal. exact IH. Qed.

Lemma substring_split s : ∀ n, (n ≤ String.length s)%nat →
  s = String.substring 0 n s +:+ String.substring n (String.length s - n) s.
Proof.
  induction s as [|c s IH]; intros n Hn.
  - destruct n; [done|]. cbn in Hn. lia.
  - destruct n as [|n].
    + change (String.substring 0 0 (String c s)) with EmptyString.
      rewrite Nat.sub_0_r. by rewrite substring_all.
    + cbn in Hn. simpl.
      change (String c s
              = String c (String.substring 0 n s
                          +:+ String.substring n (String.length s - n) s)).
      f_equal. apply IH. lia.
Qed.

Lemma endswith_iff s suffix :
  endswith s suffix = true ↔ ∃ p, s = p +:+ suffix.
Proof.
  unfold endswith. rewrite andb_true_iff. split.
  - intros [Hlen Heq]. apply Nat.leb_le in Hlen.
    apply String.eqb_eq in Heq.
    exists (String.substring 0 (String.length s - String.length suffix) s).
    pose proof (substring_split s (String.length s - String.length suffix))
      as Hs.
    replace (String.length s - (String.length s - String.length suffix))%nat
      with (String.length suffix) in Hs by lia.
    rewrite Heq in Hs. apply Hs. lia.
  - intros [p ->]. rewrite string_length_app. split.
    + apply Nat.leb_le. lia.
    + apply String.eqb_eq.
      replace (String.length p + String.length suffix - String.length suffix)%nat
        with (String.length p) by lia.
      rewrite substring_skip. apply substring_all.
Qed.

(** X11: a name is supported exactly when it is some prefix followed by one
    of the five extensions. *)
Theorem supported_iff name :
  supported name = true
  ↔ ∃ p ext, ext ∈ supported_extensions ∧ name = p +:+ ext.
Proof.
  unfold supported. rewrite existsb_exists. split.
  - intros (ext & Hin & Hends). apply endswith_iff in Hends as [p ->].
    exists p, ext. split; [by apply list_elem_of_In|done].
  - intros (p & ext & Hin & ->). exists ext.
    split; [by apply list_elem_of_In|]. apply endswith_iff. by exists p.
Qed.
End NameProperties.
Section IngestionProperties.
Context `{Environment} `{Libraries}.

Lemma load_from_filesystem_offline e0 tr0 root file s :
  (use_walrus s.2.1 = false ∧ outside s.1 = e0
   ∧ ∃ evs, trace s.1 = (tr0 ++ evs)%list
       ∧ Forall (fun ev => is_retrieval ev || is_store ev = false) evs) →
  (use_walrus (load_from_filesystem root file s).1.2.1 = false
   ∧ outside (load_from_filesystem root file s).1.1 = e0
   ∧ ∃ evs, trace (load_from_filesystem root file s).1.1 = (tr0 ++ evs)%list
       ∧ Forall (fun ev => is_retrieval ev || is_store ev = false) evs)
  ∧ (load_from_filesystem root file s).2 = Ok tt.
Proof.
  destruct s as [w [g p]]. cbn [fst snd].
  intros (Huw & Hout & evs & Htr & Hall).
  unfold load_from_filesystem, self_doc_map, on_self, try_except, bind,
    lift, io, update, gets, ret, read_text, log.
  cbn [fst snd].
  repeat case_match; simplify_eq;
    cbn [fst snd use_walrus outside trace append_document append_metadata]
      in *;
    simplify_eq; try congruence.
  all: split; [|done]. all: split; [done|]. all: split; [done|].
  all: try (by exists evs).
  all: eexists (evs ++ [_])%list.
  all: rewrite Htr, <- app_assoc; split; [reflexivity|].
  all: apply Forall_app; split; [done|]; by repeat constructor.
Qed.

(** X13: with [use_walrus] false, [process_documents] never contacts the
    blob service: its state is unchanged and no retrieval or store is among
    the actions performed. *)
Theorem no_walrus_ingestion_stays_local w g (Huw : use_walrus g = false) :
  outside (process_documents (w, g)).1.1 = outside w
  ∧ ∃ evs,
      trace (process_documents (w, g)).1.1 = (trace w ++ evs)%list
      ∧ Forall (fun ev => is_retrieval ev || is_store ev = false) evs.
Proof.
  unfold process_documents, bind.
  destruct (load_documents (w, g)) as [[w1 g1] res1] eqn:Hload.
  assert (use_walrus g1 = false ∧ outside w1 = outside w
          ∧ ∃ evs, trace w1 = (trace w ++ evs)%list
              ∧ Forall (fun ev => is_retrieval ev || is_store ev = false) evs)
    as (Huw1 & Hout1 & evs1 & Htr1 & Hall1).
  { revert Hload. unfold load_documents, load_documents_loops, bind, gets.
    cbn [fst snd]. rewrite Huw. unfold ret at 1. cbn [fst snd].
    set (P := fun s : world * (DocumentIngester * gset string) =>
           use_walrus s.2.1 = false ∧ outside s.1 = outside w
           ∧ ∃ evs, trace s.1 = (trace w ++ evs)%list
               ∧ Forall (fun ev => is_retrieval ev || is_store ev = false) evs).
    destruct (for_each_preserves P
                (fun d : string * list string =>
                   for_each d.2 (load_from_filesystem d.1))
                (os_walk (fs w) (data_dir g)) ) with (s := (w, (g, ∅ : gset string)))
      as [HP _].
    - intros d s Hs. apply for_each_preserves; [|done].
      intros x s' Hs'. by apply load_from_filesystem_offline.
    - split; [done|]. split; [done|]. exists []. by rewrite app_nil_r.
    - destruct (for_each _ _ _) as [[w2 [g2 p2]] res2].
      intros [= <- <- <-]. exact HP. }
  destruct res1 as [[]|e]; cbn [fst snd]; [|by eauto].
  unfold create_embeddings, bind, gets, lift, update, io_, ret, write_bytes,
    log.
  cbn [fst snd]. destruct (documents g1) as [|c cs]; [by eauto|].
  destruct (build_index (c :: cs)) as [[v ix]|e]; [|by eauto].
  cbn [fst snd use_walrus set_i_vectorizer outside trace]. rewrite Huw1.
  cbn [fst snd outside trace]. split; [done|].
  eexists (evs1 ++ [_; _; _])%list. rewrite Htr1, <- !app_assoc.
  split; [reflexivity|]. apply Forall_app. split; [done|].
  by repeat constructor.
Qed.

(** X14: with no documents, or when the fit fails, [create_embeddings]
    changes neither the world nor the ingester, so the artifacts of an earlier
    run stay on disk; it returns normally only in the first case. *)
Theorem create_embeddings_without_index w g
    (Hnone : documents g = []
             ∨ ∃ e, build_index (documents g) = Raise e) :
  (create_embeddings (w, g)).1 = (w, g)
  ∧ ((create_embeddings (w, g)).2 = Ok tt ↔ documents g = []).
Proof.
  unfold create_embeddings, bind, gets, lift, ret. cbn [fst snd].
  destruct (documents g) as [|c cs] eqn:Hd; [done|].
  destruct Hnone as [?|[e He]]; [done|]. rewrite He. cbn [fst snd].
  split; [done|]. split; intros; done.
Qed.

(** X15: on an ingester built by the constructor, whose document map was
    read from a map file that is missing, invalid or holds a JSON object,
    [load_documents] returns normally in every world: no failure of the blob
    store, of decoding a blob or of reading a file reaches its caller. *)
Theorem load_documents_contains_failures dir vsd uw w0 w g
    (Hinit : DocumentIngester_init dir vsd uw w0 = Ok g) :
  (load_documents (w, g)).2 = Ok tt.
Proof.
  apply DocumentIngester_init_fresh in Hinit as (Hd0 & Hm0 & _ & Huw & Hdm).
  destruct (load_documents (w, g)) as [[w1 g1] res1] eqn:Hload.
  apply load_documents_lockstep in Hload
    as (_ & _ & _ & _ & _ & _ & Hres); [|by rewrite Hd0, Hm0].
  destruct Hres as [-> | [Hu Hnone]]; [done|].
  rewrite Hu in Huw. destruct (Hdm (eq_sym Huw)) as [? ?]. congruence.
Qed.
End IngestionProperties.

Lemma no_walrus_ingestion_stays_local_witness :
  use_walrus Demo2.offline = false
  ∧ outside (@process_documents (Demo.env true) Demo2.lib
               (Demo.start true, Demo2.offline)).1.1
    = outside (Demo.start true).
Proof.
  split; [reflexivity|].
  apply (@no_walrus_ingestion_stays_local (Demo.env true) Demo2.lib
           (Demo.start true) Demo2.offline). reflexivity.
Defined.

Lemma create_embeddings_without_index_witness :
  documents Demo2.offline = []
  ∧ (@create_embeddings (Demo.env true) Demo2.lib
       (Demo.start true, Demo2.offline)).1
    = (Demo.start true, Demo2.offline).
Proof.
  split; [reflexivity|].
  apply (@create_embeddings_without_index (Demo.env true) Demo2.lib
           (Demo.start true) Demo2.offline). left. reflexivity.
Defined.

Lemma load_documents_contains_failures_witness :
  @DocumentIngester_init (Demo.env false) Demo.lib None "vector_store" true
    (Demo.start false) = Ok Demo.fresh
  ∧ (@load_documents (Demo.env false) Demo.lib
       (Demo.start false, Demo.fresh)).2 = Ok tt.
Proof.
  split; [reflexivity|].
  apply (@load_documents_contains_failures (Demo.env false) Demo.lib None
           "vector_store" true (Demo.start false) (Demo.start false)
           Demo.fresh).
  reflexivity.
Defined.

Section LoadingProperties.
Context `{Environment} `{Libraries}.



End LoadingProperties.

Section HandlerProperties.
Context `{Environment} `{Libraries} `{Disk}.

Lemma store_document_outcome data m (w : world) :
  store_document (Bytes data) m w
  = (log (EvStore data m (store_outcome (outside w) data m).2)
       (World (fs w) (store_outcome (outside w) data m).1 (trace w)),
     (store_outcome (outside w) data m).2).
Proof.
  unfold store_outcome, store_document, log. cbn [outside fs trace].
  by destruct (api_store (outside w) data m) as [e resp].
Qed.

Lemma append_locally_answers f c e w a :
  ∃ w' a' j, append_locally f c e (w, a) = ((w', a'), Ok j)
    ∧ app_doc_map a' = app_doc_map a
    ∧ (status_of j = 200 ∨ status_of j = 404 ∨ status_of j = 500).
Proof.
  unfold append_locally, try_except, bind, gets, io, io_, ret,
    open_and_append.
  cbn [fst snd].
  destruct (exists_ (os_path_join DATA_DIR f) w); cbn [negb fst snd].
  - destruct (open_for_writing (os_path_join DATA_DIR f)) as [[]|x];
      cbn [fst snd].
    + match goal with
      | |- context [reload (?w0, a)] =>
          destruct (reload_effects w0 a) as (w' & r' & evs & Hrun & _)
      end.
      rewrite Hrun. eexists _, _, _. split; [reflexivity|]. split; [done|].
      by left.
    + eexists _, _, _. split; [reflexivity|]. split; [done|]. right.
      by right.
  - eexists _, _, _. split; [reflexivity|]. split; [done|]. right. by left.
Qed.

Lemma append_via_walrus_answers f c s s' j :
  append_via_walrus f c s = (s', Ok j) →
  status_of j = 200 ∨ status_of j = 404.
Proof.
  destruct s as [w a].
  unfold append_via_walrus, bind, gets, lift, io, io_, app_add_document,
    open_and_write, ret.
  cbn [fst snd]. intros Hrun.
  repeat case_match; simplify_eq; cbn [fst snd] in *; simplify_eq;
    try (by right).
  all: match goal with
       | Hi : ingest_and_answer ?f0 (?w0, ?a0) = _ |- _ =>
           destruct (ingest_and_answer_effects f0 w0 a0)
             as (? & ? & ? & Hans & _);
           rewrite Hans in Hi; simplify_eq
       end.
  all: by left.
Qed.

(** X16: for a request body that is an object whose [filename] and
    [content] are strings or missing, [append_to_txt_file] lets no exception
    escape, whatever the blob store and the local disk do: it answers with
    status 200, 400, 404 or 500.  On a body that is not an object it raises
    [AttributeError] before anything is done. *)
Theorem append_answers_every_object filename content s :
  (∃ s' j,
     append_to_txt_file (JsonObject filename content) s = (s', Ok j)
     ∧ (status_of j = 200 ∨ status_of j = 400 ∨ status_of j = 404
        ∨ status_of j = 500))
  ∧ ∃ msg,
      append_to_txt_file NotAnObject s = (s, Raise (Exn AttributeError msg)).
Proof.
  split; [|by eexists].
  unfold append_to_txt_file.
  destruct (negb (truthy filename) || negb (truthy content)).
  { eexists _, _. split; [reflexivity|]. right. by left. }
  unfold try_except.
  destruct (append_via_walrus _ _ s) as [s1 [j|e]] eqn:Hrun.
  - apply append_via_walrus_answers in Hrun. exists s1, j. split; [done|].
    tauto.
  - destruct s1 as [w1 a1].
    destruct (append_locally_answers (default "" filename)
                (default "" content) e w1 a1)
      as (w' & a' & j & Hl & _ & Hst).
    rewrite Hl. exists (w', a'), j. split; [done|]. tauto.
Qed.

Lemma append_locally_effects f c x data (w0 : world) a
    (Hfile : fs w0 !! os_path_join DATA_DIR f = Some data)
    (Hfilew : open_for_writing (os_path_join DATA_DIR f) = Ok tt) :
  ∃ w' a' rest,
    append_locally f c x (w0, a)
    = ((w', a'),
       Ok (Json 200 [("success", JBool true); ("filename", JStr f);
                     ("storage", JStr "local");
                     ("walrus_error", JStr (str x))]))
    ∧ app_doc_map a' = app_doc_map a
    ∧ trace w'
      = (trace w0
         ++ [EvWrite (os_path_join DATA_DIR f)
               (data +:+ utf8_encode (newline +:+ c));
             EvSystem false]
         ++ rest)%list.
Proof.
  unfold append_locally, try_except, bind, gets, io, io_, ret, exists_,
    open_and_append.
  cbn [fst snd].
  rewrite bool_decide_eq_true_2 by (rewrite Hfile; eauto).
  cbn [negb fst snd]. rewrite Hfilew. cbn [fst snd].
  unfold append_text. rewrite Hfile. cbn [default from_option id].
  destruct (os_system_ingest_trace false
              (write_bytes (os_path_join DATA_DIR f)
                 (data +:+ utf8_encode (newline +:+ c)) w0)) as [k1 Hk1].
  match goal with
  | |- context [reload (?w1, a)] =>
      destruct (reload_effects w1 a) as (w' & r' & evs & Hrun & Htr)
  end.
  rewrite Hrun. eexists w', _, (k1 ++ evs)%list. split; [reflexivity|].
  split; [done|]. rewrite Htr, Hk1. unfold write_bytes, log. cbn [trace].
  by rewrite <- !app_assoc.
Qed.

(** X17: when the prior content was read but [store_document] raises for
    the new blob (the request fails, the answer has a status other than 200
    or carries no blob id), and the local file exists and can be opened for
    appending, the handler appends a newline and the content to the local
    file, leaves the document map as it was, starts the ingestion without
    the blob store and answers [storage: local] with the message of the
    failure. *)
Theorem append_falls_back_to_local_file a w (f c p : string) ev e m e1 t e2 x
    data
    (Hf : f ≠ "") (Hc : c ≠ "")
    (Hprior : prior_content (app_doc_map a) w f p ev e m)
    (Hclock : clock e = (e1, t))
    (Hstore : store_outcome e1 (utf8_encode (p +:+ newline +:+ c)) (m t)
              = (e2, Raise x))
    (Hfile : fs w !! os_path_join DATA_DIR f = Some data)
    (Hfilew : open_for_writing (os_path_join DATA_DIR f) = Ok tt) :
  ∃ w' a' rest,
    append_to_txt_file (JsonObject (Some f) (Some c)) (w, a)
    = ((w', a'),
       Ok (Json 200 [("success", JBool true); ("filename", JStr f);
                     ("storage", JStr "local");
                     ("walrus_error", JStr (str x))]))
    ∧ app_doc_map a' = app_doc_map a
    ∧ trace w'
      = (trace w
         ++ [ev;
             EvStore (utf8_encode (p +:+ newline +:+ c)) (m t) (Raise x);
             EvWrite (os_path_join DATA_DIR f)
               (data +:+ utf8_encode (newline +:+ c));
             EvSystem false]
         ++ rest)%list.
Proof.
  unfold append_to_txt_file.
  rewrite (truthy_Some f Hf), (truthy_Some c Hc).
  cbn [negb orb default from_option id].
  unfold try_except, append_via_walrus, bind at 1, gets at 1. cbn [fst snd].
  pose proof (blob_id_for_truthy (app_doc_map a) f) as Hb.
  destruct Hprior
    as [old e txt0 data0 p Hold Hret Hdec | data0 p Hnone Hfile0 Hdec].
  - rewrite Hold in Hb. destruct Hb as [-> ->].
    unfold bind, io, lift, retrieve_document, now, log.
    cbn [fst snd outside fs trace]. rewrite Hret.
    cbn [fst snd outside fs trace status_code payload Z.eqb Pos.eqb].
    rewrite Hdec. cbn [fst snd outside fs trace]. rewrite Hclock.
    cbn [fst snd outside fs trace]. rewrite store_document_outcome.
    cbn [fst snd outside fs trace]. rewrite Hstore.
    cbn [fst snd outside fs trace log].
    match goal with
    | |- context [append_locally f c x (?w0, a)] =>
        destruct (append_locally_effects f c x data w0 a Hfile Hfilew)
          as (w' & a' & rest & Hrun & Hdm & Htr)
    end.
    rewrite Hrun. exists w', a', rest. split; [done|]. split; [done|].
    rewrite Htr. unfold log. cbn [trace]. by rewrite <- !app_assoc.
  - rewrite Hnone in Hb. rewrite Hb.
    assert (exists_ (os_path_join DATA_DIR f) w = true) as Hex.
    { unfold exists_. apply bool_decide_eq_true_2. rewrite Hfile. eauto. }
    unfold bind at 1, gets at 1. cbn [fst snd]. rewrite Hex. cbn [negb].
    unfold bind, io, lift, read_text, open_read, now, log.
    cbn [fst snd outside fs trace]. rewrite Hfile0, Hdec.
    cbn [fst snd outside fs trace]. rewrite Hclock.
    cbn [fst snd outside fs trace]. rewrite store_document_outcome.
    cbn [fst snd outside fs trace]. rewrite Hstore.
    cbn [fst snd outside fs trace log].
    match goal with
    | |- context [append_locally f c x (?w0, a)] =>
        destruct (append_locally_effects f c x data w0 a Hfile Hfilew)
          as (w' & a' & rest & Hrun & Hdm & Htr)
    end.
    rewrite Hrun. exists w', a', rest. split; [done|]. split; [done|].
    rewrite Htr. unfold log. cbn [trace]. by rewrite <- !app_assoc.
Qed.

Lemma upload_locally_effects f data e w a
    (Hfilew : open_for_writing (os_path_join DATA_DIR f) = Ok tt) :
  ∃ w' r' rest,
    upload_locally f data e (w, a)
    = ((w', MkApp (app_doc_map a) r'),
       Ok (Json 200 [("success", JBool true); ("filename", JStr f);
                     ("storage", JStr "local");
                     ("walrus_error", JStr (str e))]))
    ∧ trace w'
      = (trace w ++ [EvWrite (os_path_join DATA_DIR f) data; EvSystem false]
         ++ rest)%list.
Proof.
  unfold upload_locally, try_except, bind, io, io_, ret, open_and_write.
  cbn [fst snd]. rewrite Hfilew. cbn [fst snd].
  destruct (os_system_ingest_trace false
              (write_bytes (os_path_join DATA_DIR f) data w)) as [k1 Hk1].
  match goal with
  | |- context [reload (?w1, a)] =>
      destruct (reload_effects w1 a) as (w' & r' & evs & Hrun & Htr)
  end.
  rewrite Hrun. exists w', r', (k1 ++ evs)%list. split; [done|].
  rewrite Htr, Hk1. unfold write_bytes, log. cbn [trace].
  by rewrite <- !app_assoc.
Qed.

Lemma store_document_stores data m (w w1 : world) res :
  store_document (Bytes data) m w = (w1, res) →
  fs w1 = fs w ∧ trace w1 = (trace w ++ [EvStore data m res])%list.
Proof.
  rewrite store_document_outcome. by intros [= <- <-].
Qed.

(** X18: an upload named [*.txt], when the map file and the local copy can
    be opened for writing, makes one store of the uploaded bytes.  If it is
    accepted the map gets the new blob id and the answer carries it; if it
    fails the map is unchanged and the answer is [storage: local].  In both
    cases the local copy is written with exactly the uploaded bytes before
    the ingestion starts. *)
Theorem upload_outcomes a w (f : string) data e1 t w1 res
    (Hname : f ≠ "") (Hext : endswith f ".txt" = true)
    (Hclock : clock (outside w) = (e1, t))
    (Hstore : store_document (Bytes data) (upload_metadata f t)
                (World (fs w) e1 (trace w)) = (w1, res))
    (Hmapw : open_for_writing (map_file (app_doc_map a)) = Ok tt)
    (Hfilew : open_for_writing (os_path_join DATA_DIR f) = Ok tt) :
  ∃ w' a' rest,
    trace w1 = (trace w ++ [EvStore data (upload_metadata f t) res])%list
    ∧ match res with
      | Ok b =>
          upload_txt_file (Some (f, data)) (w, a)
          = ((w', a'),
             Ok (Json 200 [("success", JBool true); ("filename", JStr f);
                           ("blob_id", JStr b); ("storage", JStr "walrus")]))
          ∧ get_blob_id (app_doc_map a') f = Some b
          ∧ trace w'
            = (trace w1
               ++ [EvWrite (map_file (app_doc_map a))
                     (json_dump_map (document_map (app_doc_map a')));
                   EvWrite (os_path_join DATA_DIR f) data; EvSystem true]
               ++ rest)%list
      | Raise x =>
          upload_txt_file (Some (f, data)) (w, a)
          = ((w', a'),
             Ok (Json 200 [("success", JBool true); ("filename", JStr f);
                           ("storage", JStr "local");
                           ("walrus_error", JStr (str x))]))
          ∧ app_doc_map a' = app_doc_map a
          ∧ trace w'
            = (trace w1
               ++ [EvWrite (os_path_join DATA_DIR f) data; EvSystem false]
               ++ rest)%list
      end.
Proof.
  unfold upload_txt_file. rewrite Hext.
  destruct (String.eqb_spec f ""); [done|]. cbn [negb orb].
  unfold try_except, upload_via_walrus, bind, io, now. cbn [fst snd].
  rewrite Hclock. cbn [fst snd]. rewrite Hstore. cbn [fst snd].
  pose proof Hstore as Heff.
  apply store_document_stores in Heff as [Hfs Htr]. cbn [trace fs] in *.
  destruct res as [b|x].
  - unfold app_add_document, io_, ret, open_and_write.
    cbn [fst snd app_doc_map rag_retriever].
    destruct (add_document (app_doc_map a) f b
                (Some (upload_metadata f t)) w1) as [w2 dm2] eqn:Hadd.
    apply add_document_effects in Hadd as (t' & -> & Hfs2 & Htr2).
    rewrite Hmapw. cbn [fst snd]. rewrite Hfilew. cbn [fst snd].
    destruct (os_system_ingest_trace true
                (write_bytes (os_path_join DATA_DIR f) data w2)) as [k1 Hk1].
    match goal with
    | |- context [reload (?w3, ?a3)] =>
        destruct (reload_effects w3 a3) as (w' & r' & evs & Hrun & Htr3)
    end.
    rewrite Hrun. eexists w', _, (k1 ++ evs)%list. split; [done|].
    split; [reflexivity|]. cbn [app_doc_map document_map map_file].
    split; [unfold get_blob_id; cbn [document_map];
            by rewrite lookup_insert_eq|].
    rewrite Htr3, Hk1. unfold write_bytes, log. cbn [trace].
    rewrite Htr2. cbn [document_map]. by rewrite <- !app_assoc.
  - destruct (upload_locally_effects f data x w1 a Hfilew)
      as (w' & r' & rest & Hrun & Htr').
    rewrite Hrun. eexists w', _, rest. split; [done|].
    split; [reflexivity|]. split; [done|]. exact Htr'.
Qed.

(** X19: a request without a file part, with an empty file name or with a
    name that is not a prefix followed by [.txt] is answered 400 and changes
    nothing. *)
Theorem upload_rejects_other_names (name : string) data s
    (Hbad : name = "" ∨ ∀ p, name ≠ p +:+ ".txt") :
  upload_txt_file None s = (s, Ok (Json 400 [("error", JStr "No file part")]))
  ∧ upload_txt_file (Some (name, data)) s
    = (s, Ok (Json 400 [("error", JStr "Invalid file name")])).
Proof.
  split; [done|]. unfold upload_txt_file.
  destruct Hbad as [-> | Hno]; [done|].
  destruct (endswith name ".txt") eqn:Hends.
  - apply endswith_iff in Hends as [p ->]. by destruct (Hno p).
  - by rewrite orb_true_r.
Qed.

(** X20: an upload named [*.txt] whose local copy cannot be opened for
    writing is answered 500 with the message of that failure, after one
    attempt to store the blob; when the store was accepted the document map
    keeps the new blob id in memory, otherwise it is unchanged. *)
Theorem upload_without_local_copy a w (f : string) data e1 t w1 res x
    (Hname : f ≠ "") (Hext : endswith f ".txt" = true)
    (Hclock : clock (outside w) = (e1, t))
    (Hstore : store_document (Bytes data) (upload_metadata f t)
                (World (fs w) e1 (trace w)) = (w1, res))
    (Hfilew : open_for_writing (os_path_join DATA_DIR f) = Raise x) :
  ∃ w' a',
    upload_txt_file (Some (f, data)) (w, a)
    = ((w', a'),
       Ok (Json 500 [("error", JStr ("Failed to save file: " +:+ str x))]))
    ∧ List.filter is_store (trace w')
      = (List.filter is_store (trace w)
         ++ [EvStore data (upload_metadata f t) res])%list
    ∧ match res with
      | Ok b => get_blob_id (app_doc_map a') f = Some b
      | Raise _ => app_doc_map a' = app_doc_map a
      end.
Proof.
  unfold upload_txt_file. rewrite Hext.
  destruct (String.eqb_spec f ""); [done|]. cbn [negb orb].
  unfold try_except, upload_via_walrus, bind, io, now. cbn [fst snd].
  rewrite Hclock. cbn [fst snd]. rewrite Hstore. cbn [fst snd].
  pose proof Hstore as Heff.
  apply store_document_stores in Heff as [Hfs Htr]. cbn [trace fs] in *.
  assert (∀ (w0 : world) a0 y,
            upload_locally f data y (w0, a0)
            = ((w0, a0),
               Ok (Json 500
                     [("error", JStr ("Failed to save file: " +:+ str x))])))
    as Hlocal.
  { intros w0 a0 y.
    unfold upload_locally, try_except, bind, io, ret, open_and_write.
    cbn [fst snd]. by rewrite Hfilew. }
  destruct res as [b|y].
  - unfold app_add_document, io_, ret, open_and_write.
    cbn [fst snd app_doc_map rag_retriever].
    destruct (add_document (app_doc_map a) f b
                (Some (upload_metadata f t)) w1) as [w2 dm2] eqn:Hadd.
    pose proof Hadd as Hadd'.
    apply add_document_effects in Hadd' as (t' & -> & Hfs2 & Htr2).
    assert (trace (now w1).1 = trace w1) as Hnow.
    { unfold now. by destruct (clock (outside w1)). }
    destruct (open_for_writing (map_file (app_doc_map a))) as [[]|z];
      cbn [fst snd]; rewrite ?Hfilew; cbn [fst snd]; rewrite Hlocal.
    + eexists _, _. split; [reflexivity|].
      cbn [app_doc_map document_map].
      split; [|unfold get_blob_id; cbn [document_map];
               by rewrite lookup_insert_eq].
      rewrite Htr2, Htr, !List.filter_app. cbn. by rewrite app_nil_r.
    + eexists _, _. split; [reflexivity|].
      cbn [app_doc_map document_map].
      split; [|unfold get_blob_id; cbn [document_map];
               by rewrite lookup_insert_eq].
      rewrite Hnow, Htr, !List.filter_app. by cbn.
  - rewrite Hlocal. eexists _, _. split; [reflexivity|]. split; [|done].
    rewrite Htr, !List.filter_app. by cbn.
Qed.

(** X21: when the map has a blob id for the file, the retrieval of that blob
    raises and nothing exists at the local path of the file, the handler
    answers 404, appends nothing and leaves the files and the document map
    as they were. *)
Theorem append_without_any_copy a w (f c : string) old w1 x
    (Hf : f ≠ "") (Hc : c ≠ "")
    (Hold : blob_id_for (app_doc_map a) f = Some old)
    (Hret : retrieve_document old w = (w1, Raise x))
    (Hnone : fs w !! os_path_join DATA_DIR f = None) :
  append_to_txt_file (JsonObject (Some f) (Some c)) (w, a)
  = ((w1, a), Ok (Json 404 [("error", JStr "File does not exist locally")]))
  ∧ fs w1 = fs w
  ∧ trace w1 = (trace w ++ [EvRetrieve old (Raise x)])%list.
Proof.
  unfold append_to_txt_file.
  rewrite (truthy_Some f Hf), (truthy_Some c Hc).
  cbn [negb orb default from_option id].
  unfold try_except, append_via_walrus, bind at 1, gets at 1. cbn [fst snd].
  pose proof (blob_id_for_truthy (app_doc_map a) f) as Hb.
  rewrite Hold in Hb. destruct Hb as [-> ->].
  unfold bind, io. cbn [fst snd]. rewrite Hret. cbn [fst snd].
  apply retrieve_document_effects in Hret as [Hfs Htr].
  unfold append_locally, try_except, bind, gets, ret, exists_. cbn [fst snd].
  rewrite Hfs, Hnone.
  rewrite bool_decide_eq_false_2 by (intros [? ?]; done).
  done.
Qed.

End HandlerProperties.

Lemma append_falls_back_to_local_file_witness :
  ∃ w' a',
    @append_to_txt_file Demo2.full Demo.lib Demo.disk
      (JsonObject (Some "alpha.txt") (Some "cherries"))
      (Demo2.full_start, Demo.app)
    = ((w', a'),
       Ok (Json 200 [("success", JBool true); ("filename", JStr "alpha.txt");
                     ("storage", JStr "local");
                     ("walrus_error",
                      JStr "Failed to store document: insufficient storage")]))
    ∧ app_doc_map a' = app_doc_map Demo.app.
Proof.
  destruct (@append_falls_back_to_local_file Demo2.full Demo.lib Demo.disk
              Demo.app Demo2.full_start "alpha.txt" "cherries"
              "apples and bananas"
              (EvRead "data/alpha.txt" (Ok "apples and bananas")) []
              (appended_metadata "alpha.txt") [] "2024-01-01T00:00:00" []
              (Exn OtherException
                 "Failed to store document: insufficient storage")
              "apples and bananas")
    as (w' & a' & rest & Hrun & Hdm & _).
  - discriminate.
  - discriminate.
  - apply (@prior_local Demo2.full (app_doc_map Demo.app)
             Demo2.full_start "alpha.txt" "apples and bananas"
             "apples and bananas"); reflexivity.
  - reflexivity.
  - reflexivity.
  - reflexivity.
  - reflexivity.
  - exists w', a'. split; assumption.
Defined.

Lemma upload_outcomes_witness :
  ∃ w' a',
    @upload_txt_file (Demo.env true) Demo.lib Demo.disk
      (Some ("gamma.txt", "grapes")) (Demo.start true, Demo.app)
    = ((w', a'),
       Ok (Json 200 [("success", JBool true); ("filename", JStr "gamma.txt");
                     ("blob_id", JStr "blob:grapes");
                     ("storage", JStr "walrus")]))
    ∧ get_blob_id (app_doc_map a') "gamma.txt" = Some "blob:grapes".
Proof.
  destruct (@upload_outcomes (Demo.env true) Demo.lib Demo.disk Demo.app
              (Demo.start true) "gamma.txt" "grapes" []
              "2024-01-01T00:00:00"
              (@World (Demo.env true) Demo.files [("blob:grapes", "grapes")]
                 [EvStore "grapes"
                    (upload_metadata "gamma.txt" "2024-01-01T00:00:00")
                    (Ok "blob:grapes")])
              (Ok "blob:grapes"))
    as (w' & a' & rest & _ & Hrun & Hget & _).
  - discriminate.
  - reflexivity.
  - reflexivity.
  - reflexivity.
  - reflexivity.
  - reflexivity.
  - exists w', a'. split; assumption.
Defined.

Lemma upload_rejects_other_names_witness :
  @upload_txt_file (Demo.env true) Demo.lib Demo.disk (Some ("", "grapes"))
    (Demo.start true, Demo.app)
  = ((Demo.start true, Demo.app),
     Ok (Json 400 [("error", JStr "Invalid file name")])).
Proof.
  apply (@upload_rejects_other_names (Demo.env true) Demo.lib Demo.disk ""
           "grapes" (Demo.start true, Demo.app)).
  left. reflexivity.
Defined.

Lemma upload_without_local_copy_witness :
  ∃ w' a',
    @upload_txt_file (Demo.env true) Demo.lib (Demo2.missing "data/sub")
      (Some ("sub/gamma.txt", "grapes")) (Demo.start true, Demo.app)
    = ((w', a'),
       Ok (Json 500
             [("error", JStr "Failed to save file: data/sub/gamma.txt")]))
    ∧ get_blob_id (app_doc_map a') "sub/gamma.txt" = Some "blob:grapes".
Proof.
  destruct (@upload_without_local_copy (Demo.env true) Demo.lib
              (Demo2.missing "data/sub") Demo.app (Demo.start true)
              "sub/gamma.txt" "grapes" [] "2024-01-01T00:00:00"
              (@World (Demo.env true) Demo.files [("blob:grapes", "grapes")]
                 [EvStore "grapes"
                    (upload_metadata "sub/gamma.txt" "2024-01-01T00:00:00")
                    (Ok "blob:grapes")])
              (Ok "blob:grapes")
              (Exn FileNotFoundError "data/sub/gamma.txt"))
    as (w' & a' & Hrun & _ & Hget).
  - discriminate.
  - reflexivity.
  - reflexivity.
  - reflexivity.
  - reflexivity.
  - exists w', a'. split; assumption.
Defined.

Lemma append_without_any_copy_witness :
  let a := @MkApp Demo.lib
             (MkDocumentMap "document_map.json"
                {[ "beta.txt" := Entry "blob:b" "2024-01-01T00:00:00" [] ]})
             Demo.serving in
  @append_to_txt_file (Demo.env false) Demo.lib Demo.disk
    (JsonObject (Some "beta.txt") (Some "cherries")) (Demo.start false, a)
  = ((@World (Demo.env false) Demo.files []
        [EvRetrieve "blob:b" Demo.unreachable], a),
     Ok (Json 404 [("error", JStr "File does not exist locally")])).
Proof.
  intros a.
  apply (@append_without_any_copy (Demo.env false) Demo.lib Demo.disk a
           (Demo.start false) "beta.txt" "cherries" "blob:b"
           (@World (Demo.env false) Demo.files []
              [EvRetrieve "blob:b" Demo.unreachable])
           (Exn OtherException "connection refused")).
  - discriminate.
  - discriminate.
  - reflexivity.
  - reflexivity.
  - reflexivity.
Defined.
